(** * OpaqueFrameView: non-client frame geometry, hit testing and the
      window-controls overlay

    A shallow embedding of [shell/browser/ui/views/opaque_frame_view.cc] and of
    its header.  Member functions become functions over an explicit record of
    the view's data members; what the view reads from its window, its widget
    and the platform is gathered in a record [Env] that is passed to every
    call; the base class and the ui/views helpers the file calls but does not
    define are the methods of the class [Toolkit].

    A C++ [int] is a [Z].  Every sum below adds a handful of pixel sizes and
    small constants; signed overflow is undefined in C++ and lies outside the
    executions described here.

    A member function that dereferences a [raw_ptr] data member returns an
    [outcome]: [NullDereference] when the pointer is null. *)

From Stdlib Require Import ZArith List Bool Lia.
Import ListNotations.
Local Open Scope Z_scope.

(** The values of a 32-bit [int]. *)
Definition int_range (z : Z) : Prop := - 2 ^ 31 <= z < 2 ^ 31.

(** ** ui/gfx value types *)

Module gfx.

Record Point := mkPoint { px : Z; py : Z }.

(** A [gfx::Rect], by the four ints it holds. *)
Record Rect := mkRect { x : Z; y : Z; width : Z; height : Z }.

(** The constructor [gfx::Rect(x, y, width, height)] on sizes that may be
    negative: a negative width or height is stored as 0. *)
Definition Rect_of (x y width height : Z) : Rect :=
  mkRect x y (Z.max 0 width) (Z.max 0 height).

(** [gfx::Insets::TLBR(top, left, bottom, right)]. *)
Record Insets := TLBR { top : Z; left : Z; bottom : Z; right : Z }.

(** [gfx::Insets(all)]: the same inset on the four sides. *)
Definition Insets_all (all : Z) : Insets := TLBR all all all all.

(** [gfx::Insets()]. *)
Definition Insets_zero : Insets := TLBR 0 0 0 0.

(** [Insets::width()]: the horizontal insets added up. *)
Definition Insets_width (i : Insets) : Z := left i + right i.

End gfx.

(** ** The widget and the environment of a call *)

(** The states of the decorated window the component distinguishes. *)
Inductive WindowMode := Restored | Maximized | Fullscreen.

(** What [frame()] answers: [frame()->IsMaximized()] and
    [frame()->IsFullscreen()]. *)
Record Widget := mkWidget {
  Widget_IsMaximized : bool;
  Widget_IsFullscreen : bool
}.

Definition Widget_of_mode (m : WindowMode) : Widget :=
  match m with
  | Restored => mkWidget false false
  | Maximized => mkWidget true false
  | Fullscreen => mkWidget false true
  end.

(** [views::FrameButton], the tokens of the button ordering. *)
Inductive FrameButton := kMinimize | kMaximize | kClose.

Definition SkColor := Z.

(** Everything a member function reads from outside the view at the time of
    the call.  [FrameEdgeInsets], [DefaultCaptionButtonY] and
    [kCaptionButtonHeight] are used by [NonClientTopHeight] and defined
    nowhere in the two files: they are inputs here. *)
Record Env := mkEnv {
  ShouldCustomDrawSystemTitlebar : bool;
  frame : Widget;
  IsWindowControlsOverlayEnabled : bool;   (* browser_view()->... *)
  titlebar_overlay_height : Z;             (* window()->... *)
  overlay_button_color : SkColor;          (* window()->... *)
  IsMaximized : bool;                      (* the unqualified IsMaximized() *)
  View_width : Z;                          (* width() of the frame view *)
  View_height : Z;                         (* height() of the frame view *)
  IsRTL : bool;                            (* the UI is mirrored *)
  FontList_GetHeight : Z;                  (* gfx::FontList().GetHeight() *)
  provider_leading_buttons : list FrameButton;
  provider_trailing_buttons : list FrameButton;
  FrameEdgeInsets : bool -> gfx.Insets;
  DefaultCaptionButtonY : bool -> Z;
  kCaptionButtonHeight : Z
}.

(** ** Constants *)

Definition kResizeOutsideBorderSize : Z := 10.
Definition kResizeInsideBoundsSize : Z := 5.
Definition kContentEdgeShadowThickness : Z := 2.
Definition kTopFrameEdgeThickness : Z := 2.
Definition kSideFrameEdgeThickness : Z := 1.
Definition kIconLeftSpacing : Z := 1.
Definition kIconTitleSpacing : Z := 4.
Definition kCaptionSpacing : Z := 5.
Definition kCaptionButtonBottomPadding : Z := 3.
Definition kFrameBorderThickness : Z := 4.
Definition kNonClientExtraTopThickness : Z := 1.

(** ** Geometry *)

Definition IsFrameCondensed (w : Widget) : bool :=
  Widget_IsMaximized w || Widget_IsFullscreen w.

Definition RestoredFrameBorderInsets : gfx.Insets :=
  gfx.Insets_all kFrameBorderThickness.

Definition RestoredFrameEdgeInsets : gfx.Insets :=
  gfx.TLBR kTopFrameEdgeThickness kSideFrameEdgeThickness
           kSideFrameEdgeThickness kSideFrameEdgeThickness.

Definition NonClientExtraTopThickness : Z := kNonClientExtraTopThickness.

Definition GetIconSize (env : Env) : Z :=
  let kIconMinimumSize := 16 in
  Z.max (FontList_GetHeight env) kIconMinimumSize.

Definition NonClientTopHeight (env : Env) (restored : bool) : Z :=
  let kVerticalPadding := 2 in
  let icon_height :=
    gfx.top (FrameEdgeInsets env restored) + GetIconSize env + kVerticalPadding in
  let caption_button_height :=
    DefaultCaptionButtonY env restored + kCaptionButtonHeight env +
    kCaptionButtonBottomPadding in
  Z.max icon_height caption_button_height + kContentEdgeShadowThickness.

Definition FrameBorderInsets (w : Widget) (restored : bool) : gfx.Insets :=
  if negb restored && IsFrameCondensed w
  then gfx.Insets_zero
  else RestoredFrameBorderInsets.

Definition FrameTopBorderThickness (w : Widget) (restored : bool) : Z :=
  let thickness := gfx.top (FrameBorderInsets w restored) in
  if (restored || negb (IsFrameCondensed w)) && (0 <? thickness)
  then thickness + NonClientExtraTopThickness
  else thickness.

(** ** Views *)

(** [views::Button::ButtonState]. *)
Inductive ButtonState :=
  STATE_NORMAL | STATE_HOVERED | STATE_PRESSED | STATE_DISABLED.

Inductive ViewID :=
  | VIEW_ID_MINIMIZE_BUTTON
  | VIEW_ID_MAXIMIZE_BUTTON
  | VIEW_ID_RESTORE_BUTTON
  | VIEW_ID_CLOSE_BUTTON.

Inductive AccessibleName :=
  IDS_ACCNAME_MINIMIZE | IDS_ACCNAME_MAXIMIZE | IDS_ACCNAME_RESTORE |
  IDS_ACCNAME_CLOSE.

Inductive ClosedReason := kCloseButtonClicked.

(** The widget member function a button's callback is bound to. *)
Inductive PressedCallback :=
  | Widget_Minimize
  | Widget_Maximize
  | Widget_Restore
  | Widget_CloseWithReason (reason : ClosedReason).

(** [ui::NavButtonProvider::ButtonState]. *)
Inductive NavButtonProviderState := kNormal | kHovered | kPressed | kDisabled.

(** Defined on the four states a button can be in; [STATE_COUNT], their
    number, is the bound of the loop in [CreateImageButton] and never an
    argument. *)
Definition ButtonStateToNavButtonProviderState (state : ButtonState)
  : NavButtonProviderState :=
  match state with
  | STATE_NORMAL => kNormal
  | STATE_HOVERED => kHovered
  | STATE_PRESSED => kPressed
  | STATE_DISABLED => kDisabled
  end.

(** The states below [STATE_COUNT], in the order of the enumeration. *)
Definition button_states : list ButtonState :=
  [STATE_NORMAL; STATE_HOVERED; STATE_PRESSED; STATE_DISABLED].

Inductive FocusBehavior := NEVER | ALWAYS | ACCESSIBLE_ONLY.

(** A [views::ImageButton], by the properties this component sets or reads.
    An image is recorded as the provider state it was requested for; the
    bitmap itself comes from the theme. *)
Record ImageButton := mkImageButton {
  button_id : option ViewID;
  button_accessible_name : option AccessibleName;
  button_callback : option PressedCallback;
  button_focus_behavior : FocusBehavior;
  button_images : list (ButtonState * NavButtonProviderState);
  button_state : ButtonState;
  button_visible : bool;
  button_bounds : gfx.Rect
}.

(** [new views::ImageButton(views::Button::PressedCallback())]: no callback,
    no name, no id, normal, visible, empty bounds. *)
Definition ImageButton_new : ImageButton :=
  mkImageButton None None None NEVER [] STATE_NORMAL true (gfx.mkRect 0 0 0 0).

Definition SetImageModel (state : ButtonState) (image : NavButtonProviderState)
  (b : ImageButton) : ImageButton :=
  mkImageButton (button_id b) (button_accessible_name b) (button_callback b)
    (button_focus_behavior b) (button_images b ++ [(state, image)])
    (button_state b) (button_visible b) (button_bounds b).

Definition SetFocusBehavior (f : FocusBehavior) (b : ImageButton) : ImageButton :=
  mkImageButton (button_id b) (button_accessible_name b) (button_callback b)
    f (button_images b) (button_state b) (button_visible b) (button_bounds b).

Definition SetCallback (callback : PressedCallback) (b : ImageButton)
  : ImageButton :=
  mkImageButton (button_id b) (button_accessible_name b) (Some callback)
    (button_focus_behavior b) (button_images b)
    (button_state b) (button_visible b) (button_bounds b).

Definition SetAccessibleName (name : AccessibleName) (b : ImageButton)
  : ImageButton :=
  mkImageButton (button_id b) (Some name) (button_callback b)
    (button_focus_behavior b) (button_images b)
    (button_state b) (button_visible b) (button_bounds b).

Definition SetID (id : ViewID) (b : ImageButton) : ImageButton :=
  mkImageButton (Some id) (button_accessible_name b) (button_callback b)
    (button_focus_behavior b) (button_images b)
    (button_state b) (button_visible b) (button_bounds b).

(** [button->SetState(state)]. *)
Definition SetState (s : ButtonState) (b : ImageButton) : ImageButton :=
  mkImageButton (button_id b) (button_accessible_name b) (button_callback b)
    (button_focus_behavior b) (button_images b)
    s (button_visible b) (button_bounds b).

(** [button->SetVisible(visible)] and [button->SetBoundsRect(bounds)]: not
    called by this file; they build the inputs of the examples. *)
Definition SetVisible (visible : bool) (b : ImageButton) : ImageButton :=
  mkImageButton (button_id b) (button_accessible_name b) (button_callback b)
    (button_focus_behavior b) (button_images b)
    (button_state b) visible (button_bounds b).

Definition SetBoundsRect (bounds : gfx.Rect) (b : ImageButton) : ImageButton :=
  mkImageButton (button_id b) (button_accessible_name b) (button_callback b)
    (button_focus_behavior b) (button_images b)
    (button_state b) (button_visible b) bounds.

(** The placeholder view behind the caption buttons. *)
Record CaptionButtonPlaceholderContainer := mkContainer {
  container_bounds : gfx.Rect;
  container_background : option SkColor
}.

(** [container->SetBounds(x, y, width, height)]: the bounds become
    [gfx::Rect(x, y, max(0, width), max(0, height))]. *)
Definition SetBounds (x y width height : Z)
  (c : CaptionButtonPlaceholderContainer) : CaptionButtonPlaceholderContainer :=
  mkContainer (gfx.Rect_of x y width height) (container_background c).

(** [container->SetBackground(views::CreateSolidBackground(color))]. *)
Definition SetBackground (color : SkColor)
  (c : CaptionButtonPlaceholderContainer) : CaptionButtonPlaceholderContainer :=
  mkContainer (container_bounds c) (Some color).

(** ** Hit-test codes of ui/base/hit_test.h *)

Definition HTNOWHERE : Z := 0.
Definition HTCLIENT : Z := 1.
Definition HTCAPTION : Z := 2.
Definition HTMINBUTTON : Z := 8.
Definition HTMAXBUTTON : Z := 9.
Definition HTCLOSE : Z := 20.

(** ** The base class and the ui/views helpers *)

(** What the file calls and does not define: the [FramelessView] base class
    (its own data is the carrier [FramelessView], which the derived class
    cannot see into), [gfx::Rect::Contains], and the mirroring of a child's
    bounds and of a rectangle of the view for right-to-left layouts. *)
Class Toolkit := {
  FramelessView : Type;
  FramelessView_Init : Env -> FramelessView -> FramelessView;
  FramelessView_NonClientHitTest : Env -> FramelessView -> gfx.Point -> Z;
  FramelessView_GetBoundsForClientView : Env -> FramelessView -> gfx.Rect;
  FramelessView_GetWindowBoundsForClientBounds :
    Env -> FramelessView -> gfx.Rect -> gfx.Rect;
  FramelessView_Layout : Env -> FramelessView -> FramelessView;
  FramelessView_PaintAsActiveChanged : Env -> FramelessView -> FramelessView;
  FramelessView_OnThemeChanged : Env -> FramelessView -> FramelessView;
  NonClientFrameView_ResetWindowControls : FramelessView -> FramelessView;
  Rect_Contains : gfx.Rect -> gfx.Point -> bool;
  GetMirroredBounds : Env -> gfx.Rect -> gfx.Rect;
  GetMirroredRect : Env -> gfx.Rect -> gfx.Rect
}.

(** ** Null pointers *)

Inductive outcome (A : Type) : Type :=
  | Done (a : A)
  | NullDereference.
Arguments Done {A} a.
Arguments NullDereference {A}.

Definition bind {A B : Type} (c : outcome A) (k : A -> outcome B) : outcome B :=
  match c with
  | Done a => k a
  | NullDereference => NullDereference
  end.

Notation "x <- c ;; k" := (bind c (fun x => k))
  (at level 61, c at next level, right associativity).

(** [p->...] on a [raw_ptr] member. *)
Definition deref {A : Type} (p : option A) : outcome A :=
  match p with
  | Some a => Done a
  | None => NullDereference
  end.

(** ** Calls the view makes on its window and widget *)

Inductive Call :=
  | RegisterPaintAsActiveChangedCallback
  | SetWindowControlsOverlayRect (r : gfx.Rect)
  | NotifyLayoutWindowControlsOverlay.

(** A child added with [AddChildView]. *)
Inductive Child :=
  | PlaceholderChild
  | ButtonChild (id : ViewID).

(** ** The view *)

Section View.

Context {toolkit : Toolkit}.

(** The data members of [OpaqueFrameView], in the order of the header, after
    the part that belongs to the base class; [children] and [calls] record,
    oldest first, the child views added and the calls made on the window and
    the widget. *)
Record OpaqueFrameView := mkView {
  base : FramelessView;
  minimize_button_ : option ImageButton;
  maximize_button_ : option ImageButton;
  restore_button_ : option ImageButton;
  close_button_ : option ImageButton;
  leading_buttons_ : list FrameButton;
  trailing_buttons_ : list FrameButton;
  placed_leading_button_ : bool;
  placed_trailing_button_ : bool;
  available_space_leading_x_ : Z;
  available_space_trailing_x_ : Z;
  minimum_size_for_buttons_ : Z;
  paint_as_active_changed_subscription_ : bool;
  caption_button_placeholder_container_ :
    option CaptionButtonPlaceholderContainer;
  children : list Child;
  calls : list Call
}.

(** The constructor: a [raw_ptr] member starts null, the other members take
    the initializers of the header. *)
Definition OpaqueFrameView_new (b : FramelessView) : OpaqueFrameView :=
  mkView b None None None None
         [] [kMinimize; kMaximize; kClose]
         false false 0 0 0
         false None [] [].

(** *** Assignments to one member *)

Definition set_base (b : FramelessView) (v : OpaqueFrameView) :=
  mkView b (minimize_button_ v) (maximize_button_ v) (restore_button_ v)
    (close_button_ v) (leading_buttons_ v) (trailing_buttons_ v)
    (placed_leading_button_ v) (placed_trailing_button_ v)
    (available_space_leading_x_ v) (available_space_trailing_x_ v)
    (minimum_size_for_buttons_ v) (paint_as_active_changed_subscription_ v)
    (caption_button_placeholder_container_ v) (children v) (calls v).

Definition set_minimize_button (b : option ImageButton) (v : OpaqueFrameView) :=
  mkView (base v) b (maximize_button_ v) (restore_button_ v)
    (close_button_ v) (leading_buttons_ v) (trailing_buttons_ v)
    (placed_leading_button_ v) (placed_trailing_button_ v)
    (available_space_leading_x_ v) (available_space_trailing_x_ v)
    (minimum_size_for_buttons_ v) (paint_as_active_changed_subscription_ v)
    (caption_button_placeholder_container_ v) (children v) (calls v).

Definition set_maximize_button (b : option ImageButton) (v : OpaqueFrameView) :=
  mkView (base v) (minimize_button_ v) b (restore_button_ v)
    (close_button_ v) (leading_buttons_ v) (trailing_buttons_ v)
    (placed_leading_button_ v) (placed_trailing_button_ v)
    (available_space_leading_x_ v) (available_space_trailing_x_ v)
    (minimum_size_for_buttons_ v) (paint_as_active_changed_subscription_ v)
    (caption_button_placeholder_container_ v) (children v) (calls v).

Definition set_restore_button (b : option ImageButton) (v : OpaqueFrameView) :=
  mkView (base v) (minimize_button_ v) (maximize_button_ v) b
    (close_button_ v) (leading_buttons_ v) (trailing_buttons_ v)
    (placed_leading_button_ v) (placed_trailing_button_ v)
    (available_space_leading_x_ v) (available_space_trailing_x_ v)
    (minimum_size_for_buttons_ v) (paint_as_active_changed_subscription_ v)
    (caption_button_placeholder_container_ v) (children v) (calls v).

Definition set_close_button (b : option ImageButton) (v : OpaqueFrameView) :=
  mkView (base v) (minimize_button_ v) (maximize_button_ v) (restore_button_ v)
    b (leading_buttons_ v) (trailing_buttons_ v)
    (placed_leading_button_ v) (placed_trailing_button_ v)
    (available_space_leading_x_ v) (available_space_trailing_x_ v)
    (minimum_size_for_buttons_ v) (paint_as_active_changed_subscription_ v)
    (caption_button_placeholder_container_ v) (children v) (calls v).

Definition set_button_order (leading trailing : list FrameButton)
  (v : OpaqueFrameView) :=
  mkView (base v) (minimize_button_ v) (maximize_button_ v) (restore_button_ v)
    (close_button_ v) leading trailing
    (placed_leading_button_ v) (placed_trailing_button_ v)
    (available_space_leading_x_ v) (available_space_trailing_x_ v)
    (minimum_size_for_buttons_ v) (paint_as_active_changed_subscription_ v)
    (caption_button_placeholder_container_ v) (children v) (calls v).

Definition set_subscription (s : bool) (v : OpaqueFrameView) :=
  mkView (base v) (minimize_button_ v) (maximize_button_ v) (restore_button_ v)
    (close_button_ v) (leading_buttons_ v) (trailing_buttons_ v)
    (placed_leading_button_ v) (placed_trailing_button_ v)
    (available_space_leading_x_ v) (available_space_trailing_x_ v)
    (minimum_size_for_buttons_ v) s
    (caption_button_placeholder_container_ v) (children v) (calls v).

Definition set_container (c : option CaptionButtonPlaceholderContainer)
  (v : OpaqueFrameView) :=
  mkView (base v) (minimize_button_ v) (maximize_button_ v) (restore_button_ v)
    (close_button_ v) (leading_buttons_ v) (trailing_buttons_ v)
    (placed_leading_button_ v) (placed_trailing_button_ v)
    (available_space_leading_x_ v) (available_space_trailing_x_ v)
    (minimum_size_for_buttons_ v) (paint_as_active_changed_subscription_ v)
    c (children v) (calls v).

(** [AddChildView(child)]. *)
Definition AddChildView (c : Child) (v : OpaqueFrameView) :=
  mkView (base v) (minimize_button_ v) (maximize_button_ v) (restore_button_ v)
    (close_button_ v) (leading_buttons_ v) (trailing_buttons_ v)
    (placed_leading_button_ v) (placed_trailing_button_ v)
    (available_space_leading_x_ v) (available_space_trailing_x_ v)
    (minimum_size_for_buttons_ v) (paint_as_active_changed_subscription_ v)
    (caption_button_placeholder_container_ v) (children v ++ [c]) (calls v).

Definition call (c : Call) (v : OpaqueFrameView) :=
  mkView (base v) (minimize_button_ v) (maximize_button_ v) (restore_button_ v)
    (close_button_ v) (leading_buttons_ v) (trailing_buttons_ v)
    (placed_leading_button_ v) (placed_trailing_button_ v)
    (available_space_leading_x_ v) (available_space_trailing_x_ v)
    (minimum_size_for_buttons_ v) (paint_as_active_changed_subscription_ v)
    (caption_button_placeholder_container_ v) (children v) (calls v ++ [c]).

(** The five members of the layout cursor. *)
Definition layout_cursor (v : OpaqueFrameView) : bool * bool * Z * Z * Z :=
  (placed_leading_button_ v, placed_trailing_button_ v,
   available_space_leading_x_ v, available_space_trailing_x_ v,
   minimum_size_for_buttons_ v).

(** The four button pointers are all set. *)
Definition buttons_exist (v : OpaqueFrameView) : bool :=
  match minimize_button_ v, maximize_button_ v,
        restore_button_ v, close_button_ v with
  | Some _, Some _, Some _, Some _ => true
  | _, _, _, _ => false
  end.

(** The four button pointers are all null. *)
Definition no_button (v : OpaqueFrameView) : bool :=
  match minimize_button_ v, maximize_button_ v,
        restore_button_ v, close_button_ v with
  | None, None, None, None => true
  | _, _, _, _ => false
  end.

(** *** Member functions *)

(** [CreateImageButton]: a new button gets an image for each state, its
    focus behaviour, callback, accessible name and id; it is added to the
    view and returned. *)
Definition CreateImageButton (view_id : ViewID)
  (accessibility_string_id : AccessibleName) (callback : PressedCallback)
  (v : OpaqueFrameView) : ImageButton * OpaqueFrameView :=
  let button := ImageButton_new in
  let button :=
    fold_left
      (fun button state =>
         SetImageModel state (ButtonStateToNavButtonProviderState state) button)
      button_states button in
  let button := SetFocusBehavior ACCESSIBLE_ONLY button in
  let button := SetCallback callback button in
  let button := SetAccessibleName accessibility_string_id button in
  let button := SetID view_id button in
  (button, AddChildView (ButtonChild view_id) v).

Definition InitButtons (v : OpaqueFrameView) : OpaqueFrameView :=
  let '(b, v) :=
    CreateImageButton VIEW_ID_MINIMIZE_BUTTON IDS_ACCNAME_MINIMIZE
                      Widget_Minimize v in
  let v := set_minimize_button (Some b) v in
  let '(b, v) :=
    CreateImageButton VIEW_ID_MAXIMIZE_BUTTON IDS_ACCNAME_MAXIMIZE
                      Widget_Maximize v in
  let v := set_maximize_button (Some b) v in
  let '(b, v) :=
    CreateImageButton VIEW_ID_RESTORE_BUTTON IDS_ACCNAME_RESTORE
                      Widget_Restore v in
  let v := set_restore_button (Some b) v in
  let '(b, v) :=
    CreateImageButton VIEW_ID_CLOSE_BUTTON IDS_ACCNAME_CLOSE
                      (Widget_CloseWithReason kCloseButtonClicked) v in
  set_close_button (Some b) v.

Definition Init (env : Env) (v : OpaqueFrameView) : OpaqueFrameView :=
  let v := set_base (FramelessView_Init env (base v)) v in
  if ShouldCustomDrawSystemTitlebar env then v
  else
    let v := AddChildView PlaceholderChild v in
    let v := set_container (Some (mkContainer (gfx.mkRect 0 0 0 0) None)) v in
    let v := call RegisterPaintAsActiveChangedCallback v in
    let v := set_subscription true v in
    InitButtons v.

(** The source writes [width] and [height]; they are read as the view's
    [width()] and [height()]. *)
Definition GetBoundsForClientView (env : Env) (v : OpaqueFrameView) : gfx.Rect :=
  if ShouldCustomDrawSystemTitlebar env then
    let border_thickness := FrameBorderInsets (frame env) false in
    let top_height := gfx.top border_thickness in
    gfx.mkRect (gfx.left border_thickness) top_height
      (Z.max 0 (View_width env - gfx.Insets_width border_thickness))
      (Z.max 0 (View_height env - top_height - gfx.bottom border_thickness))
  else FramelessView_GetBoundsForClientView env (base v).

Definition GetWindowBoundsForClientBounds (env : Env) (v : OpaqueFrameView)
  (client_bounds : gfx.Rect) : gfx.Rect :=
  if ShouldCustomDrawSystemTitlebar env then
    let top_height := NonClientTopHeight env false in
    let border_insets := FrameBorderInsets (frame env) false in
    gfx.mkRect (Z.max 0 (gfx.x client_bounds - gfx.left border_insets))
      (Z.max 0 (gfx.y client_bounds - top_height))
      (gfx.width client_bounds + gfx.Insets_width border_insets)
      (gfx.height client_bounds + top_height + gfx.bottom border_insets)
  else FramelessView_GetWindowBoundsForClientBounds env (base v) client_bounds.

(** The anonymous-namespace helper. *)
Definition HitTestCaptionButton (env : Env) (button : option ImageButton)
  (point : gfx.Point) : bool :=
  match button with
  | None => false
  | Some b =>
      button_visible b &&
      Rect_Contains (GetMirroredBounds env (button_bounds b)) point
  end.

Definition NonClientHitTest (env : Env) (v : OpaqueFrameView)
  (point : gfx.Point) : Z :=
  if ShouldCustomDrawSystemTitlebar env then
    if HitTestCaptionButton env (close_button_ v) point then HTCLOSE
    else if HitTestCaptionButton env (restore_button_ v) point then HTMAXBUTTON
    else if HitTestCaptionButton env (maximize_button_ v) point then HTMAXBUTTON
    else if HitTestCaptionButton env (minimize_button_ v) point then HTMINBUTTON
    else if IsWindowControlsOverlayEnabled env &&
            match caption_button_placeholder_container_ v with
            | None => false
            | Some c =>
                Rect_Contains (GetMirroredBounds env (container_bounds c)) point
            end
    then HTCAPTION
    else FramelessView_NonClientHitTest env (base v) point
  else FramelessView_NonClientHitTest env (base v) point.

Definition ResetWindowControls (v : OpaqueFrameView) : outcome OpaqueFrameView :=
  let v := set_base (NonClientFrameView_ResetWindowControls (base v)) v in
  b <- deref (restore_button_ v) ;;
  let v := set_restore_button (Some (SetState STATE_NORMAL b)) v in
  b <- deref (minimize_button_ v) ;;
  let v := set_minimize_button (Some (SetState STATE_NORMAL b)) v in
  b <- deref (maximize_button_ v) ;;
  let v := set_maximize_button (Some (SetState STATE_NORMAL b)) v in
  Done v.

Definition OnWindowButtonOrderingChange (env : Env) (v : OpaqueFrameView)
  : OpaqueFrameView :=
  set_button_order (provider_leading_buttons env)
                   (provider_trailing_buttons env) v.

Definition Layout (env : Env) (v : OpaqueFrameView) : outcome OpaqueFrameView :=
  v <- (if ShouldCustomDrawSystemTitlebar env then
          let height := NonClientTopHeight env false in
          let container_x :=
            if placed_trailing_button_ v then available_space_trailing_x_ v
            else 0 in
          let insets := FrameBorderInsets (frame env) false in
          c <- deref (caption_button_placeholder_container_ v) ;;
          Done (set_container
                  (Some (SetBounds container_x (gfx.top insets)
                           (minimum_size_for_buttons_ v - gfx.Insets_width insets)
                           (height - gfx.top insets) c)) v)
        else Done v) ;;
  Done (set_base (FramelessView_Layout env (base v)) v).

Definition LayoutWindowControlsOverlay (env : Env) (v : OpaqueFrameView)
  : outcome OpaqueFrameView :=
  let overlay_height := titlebar_overlay_height env in
  overlay_height <-
    (if overlay_height =? 0 then
       c <- deref (caption_button_placeholder_container_ v) ;;
       Done (if IsMaximized env
             then gfx.height (container_bounds c)
             else gfx.height (container_bounds c) + 1)
     else Done overlay_height) ;;
  c <- deref (caption_button_placeholder_container_ v) ;;
  let overlay_width := gfx.width (container_bounds c) in
  let bounding_rect_width := View_width env - overlay_width in
  let bounding_rect :=
    GetMirroredRect env (gfx.Rect_of 0 0 bounding_rect_width overlay_height) in
  let v := call (SetWindowControlsOverlayRect bounding_rect) v in
  Done (call NotifyLayoutWindowControlsOverlay v).

Definition UpdateCaptionButtonPlaceholderContainerBackground (env : Env)
  (v : OpaqueFrameView) : OpaqueFrameView :=
  match caption_button_placeholder_container_ v with
  | Some c =>
      let bg_color := overlay_button_color env in
      set_container (Some (SetBackground bg_color c)) v
  | None => v
  end.

Definition PaintAsActiveChanged (env : Env) (v : OpaqueFrameView)
  : OpaqueFrameView :=
  let v := UpdateCaptionButtonPlaceholderContainerBackground env v in
  set_base (FramelessView_PaintAsActiveChanged env (base v)) v.

Definition OnThemeChanged (env : Env) (v : OpaqueFrameView) : OpaqueFrameView :=
  let v := UpdateCaptionButtonPlaceholderContainerBackground env v in
  set_base (FramelessView_OnThemeChanged env (base v)) v.

(** *** The operations as events, and the views they can produce *)

(** The member functions that can assign a data member ([const] ones and the
    hit test only read).  Each is run in the environment of its own call. *)
Inductive Op :=
  | OpInit
  | OpInitButtons
  | OpResetWindowControls
  | OpOnWindowButtonOrderingChange
  | OpLayout
  | OpLayoutWindowControlsOverlay
  | OpPaintAsActiveChanged
  | OpOnThemeChanged
  | OpUpdateCaptionButtonPlaceholderContainerBackground.

Definition run (env : Env) (op : Op) (v : OpaqueFrameView)
  : outcome OpaqueFrameView :=
  match op with
  | OpInit => Done (Init env v)
  | OpInitButtons => Done (InitButtons v)
  | OpResetWindowControls => ResetWindowControls v
  | OpOnWindowButtonOrderingChange => Done (OnWindowButtonOrderingChange env v)
  | OpLayout => Layout env v
  | OpLayoutWindowControlsOverlay => LayoutWindowControlsOverlay env v
  | OpPaintAsActiveChanged => Done (PaintAsActiveChanged env v)
  | OpOnThemeChanged => Done (OnThemeChanged env v)
  | OpUpdateCaptionButtonPlaceholderContainerBackground =>
      Done (UpdateCaptionButtonPlaceholderContainerBackground env v)
  end.

(** A view some sequence of operations leaves behind, from construction on. *)
Inductive reachable : OpaqueFrameView -> Prop :=
  | reach_new (b : FramelessView) : reachable (OpaqueFrameView_new b)
  | reach_run (env : Env) (op : Op) (v v' : OpaqueFrameView) :
      reachable v -> run env op v = Done v' -> reachable v'.

(** A sequence of calls, each in its own environment; it stops at the first
    null dereference. *)
Fixpoint run_all (steps : list (Env * Op)) (v : OpaqueFrameView)
  : outcome OpaqueFrameView :=
  match steps with
  | [] => Done v
  | (env, op) :: rest => v' <- run env op v ;; run_all rest v'
  end.

(** The calls of a view's life when the title bar is custom-drawn at every
    call and [InitButtons] is only run by [Init]. *)
Definition custom_drawn_life (steps : list (Env * Op)) : Prop :=
  Forall (fun step => ShouldCustomDrawSystemTitlebar (fst step) = true /\
                      snd step <> OpInitButtons) steps.

(** *** The hit-test order, as a relation *)

(** A button takes part in the hit test: it exists, it is visible, and its
    mirrored bounds contain the point. *)
Definition candidate (env : Env) (button : option ImageButton)
  (point : gfx.Point) : Prop :=
  exists b, button = Some b /\ button_visible b = true /\
            Rect_Contains (GetMirroredBounds env (button_bounds b)) point = true.

(** The overlay is on, the placeholder exists, and its mirrored bounds
    contain the point. *)
Definition in_overlay_caption (env : Env) (v : OpaqueFrameView)
  (point : gfx.Point) : Prop :=
  IsWindowControlsOverlayEnabled env = true /\
  exists c, caption_button_placeholder_container_ v = Some c /\
            Rect_Contains (GetMirroredBounds env (container_bounds c)) point = true.

(** First match wins: close, restore, maximize, minimize, the overlay caption,
    then the base class. *)
Inductive first_match (env : Env) (v : OpaqueFrameView) (point : gfx.Point)
  : Z -> Prop :=
  | match_close :
      candidate env (close_button_ v) point ->
      first_match env v point HTCLOSE
  | match_restore :
      ~ candidate env (close_button_ v) point ->
      candidate env (restore_button_ v) point ->
      first_match env v point HTMAXBUTTON
  | match_maximize :
      ~ candidate env (close_button_ v) point ->
      ~ candidate env (restore_button_ v) point ->
      candidate env (maximize_button_ v) point ->
      first_match env v point HTMAXBUTTON
  | match_minimize :
      ~ candidate env (close_button_ v) point ->
      ~ candidate env (restore_button_ v) point ->
      ~ candidate env (maximize_button_ v) point ->
      candidate env (minimize_button_ v) point ->
      first_match env v point HTMINBUTTON
  | match_caption :
      ~ candidate env (close_button_ v) point ->
      ~ candidate env (restore_button_ v) point ->
      ~ candidate env (maximize_button_ v) point ->
      ~ candidate env (minimize_button_ v) point ->
      in_overlay_caption env v point ->
      first_match env v point HTCAPTION
  | match_base :
      ~ candidate env (close_button_ v) point ->
      ~ candidate env (restore_button_ v) point ->
      ~ candidate env (maximize_button_ v) point ->
      ~ candidate env (minimize_button_ v) point ->
      ~ in_overlay_caption env v point ->
      first_match env v point (FramelessView_NonClientHitTest env (base v) point).

End View.

Arguments OpaqueFrameView : clear implicits.

(** ** A toolkit and inputs for the examples *)

(** [gfx::Rect::Contains]: the left and top edges are inside, the right and
    bottom edges are not. *)
Definition Contains (r : gfx.Rect) (p : gfx.Point) : bool :=
  (gfx.x r <=? gfx.px p) && (gfx.px p <? gfx.x r + gfx.width r) &&
  (gfx.y r <=? gfx.py p) && (gfx.py p <? gfx.y r + gfx.height r).

(** Mirroring inside the frame view: in a right-to-left UI a rectangle keeps
    its size and its distance to the far edge. *)
Definition MirroredRect (env : Env) (r : gfx.Rect) : gfx.Rect :=
  if IsRTL env
  then gfx.mkRect (View_width env - gfx.x r - gfx.width r) (gfx.y r)
                  (gfx.width r) (gfx.height r)
  else r.

(** A base class without data of its own, whose hit test answers the client
    area. *)
Definition example_toolkit : Toolkit :=
  Build_Toolkit unit
    (fun _ b => b)
    (fun _ _ _ => HTCLIENT)
    (fun env _ => gfx.mkRect 0 0 (View_width env) (View_height env))
    (fun _ _ r => r)
    (fun _ b => b)
    (fun _ b => b)
    (fun _ b => b)
    (fun b => b)
    Contains
    MirroredRect
    MirroredRect.

(** An 800 x 600 window in the given mode, left to right, with a 14 px font
    and 30 px caption buttons starting 1 px below the top. *)
Definition example_env (custom_draw maximized : bool) : Env :=
  {| ShouldCustomDrawSystemTitlebar := custom_draw;
     frame := mkWidget maximized false;
     IsWindowControlsOverlayEnabled := true;
     titlebar_overlay_height := 0;
     overlay_button_color := 0;
     IsMaximized := maximized;
     View_width := 800;
     View_height := 600;
     IsRTL := false;
     FontList_GetHeight := 14;
     provider_leading_buttons := [kClose];
     provider_trailing_buttons := [kMinimize; kMaximize];
     FrameEdgeInsets := fun _ => RestoredFrameEdgeInsets;
     DefaultCaptionButtonY := fun _ => 1;
     kCaptionButtonHeight := 30 |}.

(** The same window with a taller font and taller caption buttons. *)
Definition example_env_taller : Env :=
  {| ShouldCustomDrawSystemTitlebar := true;
     frame := mkWidget false false;
     IsWindowControlsOverlayEnabled := true;
     titlebar_overlay_height := 0;
     overlay_button_color := 0;
     IsMaximized := false;
     View_width := 800;
     View_height := 600;
     IsRTL := false;
     FontList_GetHeight := 40;
     provider_leading_buttons := [kClose];
     provider_trailing_buttons := [kMinimize; kMaximize];
     FrameEdgeInsets := fun _ => RestoredFrameEdgeInsets;
     DefaultCaptionButtonY := fun _ => 1;
     kCaptionButtonHeight := 32 |}.

(** The window in a right-to-left UI. *)
Definition example_env_rtl : Env :=
  {| ShouldCustomDrawSystemTitlebar := true;
     frame := mkWidget false false;
     IsWindowControlsOverlayEnabled := true;
     titlebar_overlay_height := 0;
     overlay_button_color := 0;
     IsMaximized := false;
     View_width := 800;
     View_height := 600;
     IsRTL := true;
     FontList_GetHeight := 14;
     provider_leading_buttons := [kClose];
     provider_trailing_buttons := [kMinimize; kMaximize];
     FrameEdgeInsets := fun _ => RestoredFrameEdgeInsets;
     DefaultCaptionButtonY := fun _ => 1;
     kCaptionButtonHeight := 30 |}.


(** A view initialized with an OS-drawn title bar, its four buttons then put
    in the given states and stacked on the same 46 x 30 rectangle (the
    restore button hidden), and its placeholder made 138 x 30. *)
Definition example_view (s_min s_max s_restore s_close : ButtonState)
  : OpaqueFrameView example_toolkit :=
  let r := gfx.mkRect 754 0 46 30 in
  let place (s : ButtonState) (visible : bool) (b : option ImageButton) :=
    option_map
      (fun b => SetBoundsRect r (SetVisible visible (SetState s b))) b in
  let v := Init (example_env false false) (@OpaqueFrameView_new example_toolkit tt) in
  let v := set_minimize_button (place s_min true (minimize_button_ v)) v in
  let v := set_maximize_button (place s_max true (maximize_button_ v)) v in
  let v := set_restore_button (place s_restore false (restore_button_ v)) v in
  let v := set_close_button (place s_close true (close_button_ v)) v in
  set_container (Some (mkContainer (gfx.mkRect 662 0 138 30) None)) v.

(** ** Descriptions used by the further properties *)

Definition outcome_map {A B : Type} (f : A -> B) (o : outcome A) : outcome B :=
  match o with
  | Done a => Done (f a)
  | NullDereference => NullDereference
  end.

(** A button as it leaves [CreateImageButton], written out field by field. *)
Definition created_button (view_id : ViewID) (name : AccessibleName)
  (callback : PressedCallback) : ImageButton :=
  mkImageButton (Some view_id) (Some name) (Some callback) ACCESSIBLE_ONLY
    (map (fun s => (s, ButtonStateToNavButtonProviderState s)) button_states)
    STATE_NORMAL true (gfx.mkRect 0 0 0 0).

(** A pointer is null or points to the given object. *)
Definition null_or {A : Type} (p : option A) (a : A) : Prop :=
  p = None \/ p = Some a.

Definition is_set {A : Type} (p : option A) : bool :=
  match p with
  | Some _ => true
  | None => false
  end.

Section ViewDescriptions.

Context {toolkit : Toolkit}.

(** Each button pointer is null or holds the button [InitButtons] gives
    it. *)
Definition buttons_as_created (v : OpaqueFrameView toolkit) : Prop :=
  null_or (minimize_button_ v)
    (created_button VIEW_ID_MINIMIZE_BUTTON IDS_ACCNAME_MINIMIZE Widget_Minimize) /\
  null_or (maximize_button_ v)
    (created_button VIEW_ID_MAXIMIZE_BUTTON IDS_ACCNAME_MAXIMIZE Widget_Maximize) /\
  null_or (restore_button_ v)
    (created_button VIEW_ID_RESTORE_BUTTON IDS_ACCNAME_RESTORE Widget_Restore) /\
  null_or (close_button_ v)
    (created_button VIEW_ID_CLOSE_BUTTON IDS_ACCNAME_CLOSE
       (Widget_CloseWithReason kCloseButtonClicked)).

(** The view with its restore and maximize buttons exchanged. *)
Definition swap_restore_maximize (v : OpaqueFrameView toolkit)
  : OpaqueFrameView toolkit :=
  set_restore_button (maximize_button_ v)
    (set_maximize_button (restore_button_ v) v).

(** No call of [InitButtons] other than the one [Init] makes. *)
Definition no_direct_InitButtons (steps : list (Env * Op)) : Prop :=
  Forall (fun step => snd step <> OpInitButtons) steps.


(** None of the four buttons, no placeholder, no subscription. *)
Definition nothing_created (v : OpaqueFrameView toolkit) : bool :=
  no_button v &&
  negb (is_set (caption_button_placeholder_container_ v)) &&
  negb (paint_as_active_changed_subscription_ v).

(** The four buttons, the placeholder and the subscription. *)
Definition all_created (v : OpaqueFrameView toolkit) : bool :=
  buttons_exist v &&
  is_set (caption_button_placeholder_container_ v) &&
  paint_as_active_changed_subscription_ v.

(** The placeholder of the view, if any, starts at x = 0, at y = 0 or 4, and
    has a width of 0 or less. *)
Definition container_at_origin (v : OpaqueFrameView toolkit) : Prop :=
  forall c, caption_button_placeholder_container_ v = Some c ->
    gfx.x (container_bounds c) = 0 /\
    (gfx.y (container_bounds c) = 0 \/ gfx.y (container_bounds c) = 4) /\
    gfx.width (container_bounds c) <= 0.

End ViewDescriptions.

(** * Properties *)

(** ** Geometry *)

Lemma IsFrameCondensed_mode (m : WindowMode) :
  IsFrameCondensed (Widget_of_mode m) = true <-> m = Maximized \/ m = Fullscreen.
Proof.
  destruct m; cbn; split; intros H; try discriminate; auto;
    destruct H as [H | H]; discriminate H.
Qed.

Lemma FrameBorderInsets_restored (w : Widget) :
  FrameBorderInsets w true = RestoredFrameBorderInsets.
Proof. reflexivity. Qed.

Lemma FrameBorderInsets_zero_iff (w : Widget) :
  FrameBorderInsets w false = gfx.Insets_zero <-> IsFrameCondensed w = true.
Proof.
  unfold FrameBorderInsets. cbn [negb andb].
  destruct (IsFrameCondensed w); split; intros H; try reflexivity; discriminate H.
Qed.

(** C5.  Whatever the window mode, [FrameBorderInsets(true)] is the restored
    border, 4 px on each of the four sides; [FrameBorderInsets(false)] is the
    zero insets exactly in the condensed modes, Maximized and Fullscreen. *)
Theorem FrameBorderInsets_by_mode (m : WindowMode) :
  FrameBorderInsets (Widget_of_mode m) true = RestoredFrameBorderInsets /\
  RestoredFrameBorderInsets = gfx.TLBR 4 4 4 4 /\
  (FrameBorderInsets (Widget_of_mode m) false = gfx.Insets_zero <->
   m = Maximized \/ m = Fullscreen) /\
  (IsFrameCondensed (Widget_of_mode m) = true <->
   m = Maximized \/ m = Fullscreen).
Proof.
  split; [apply FrameBorderInsets_restored|].
  split; [reflexivity|].
  split; [|apply IsFrameCondensed_mode].
  rewrite FrameBorderInsets_zero_iff. apply IsFrameCondensed_mode.
Qed.

(** The top inset of the border is 0 or 4, so "nonzero" and the code's
    "greater than zero" agree. *)
Lemma FrameBorderInsets_top (w : Widget) (restored : bool) :
  gfx.top (FrameBorderInsets w restored) =
  if negb restored && IsFrameCondensed w then 0 else 4.
Proof.
  unfold FrameBorderInsets.
  destruct (negb restored && IsFrameCondensed w); reflexivity.
Qed.

Lemma FrameTopBorderThickness_any_widget (w : Widget) (restored : bool) :
  FrameTopBorderThickness w restored =
  gfx.top (FrameBorderInsets w restored) +
  (if (restored || negb (IsFrameCondensed w)) &&
      negb (gfx.top (FrameBorderInsets w restored) =? 0)
   then kNonClientExtraTopThickness else 0).
Proof.
  unfold FrameTopBorderThickness. cbv zeta.
  rewrite FrameBorderInsets_top.
  destruct restored, (IsFrameCondensed w); reflexivity.
Qed.

(** C9.  In every window mode, [FrameTopBorderThickness(restored)] is the top
    inset of [FrameBorderInsets(restored)], plus
    [kNonClientExtraTopThickness] = 1 exactly when the frame counts as
    restored (the flag is set or the frame is not condensed) and that inset
    is not zero.  It is 5 when [restored] is true, and 0 when [restored] is
    false in a condensed mode. *)
Theorem FrameTopBorderThickness_by_mode (m : WindowMode) (restored : bool) :
  FrameTopBorderThickness (Widget_of_mode m) restored =
    gfx.top (FrameBorderInsets (Widget_of_mode m) restored) +
    (if (restored || negb (IsFrameCondensed (Widget_of_mode m))) &&
        negb (gfx.top (FrameBorderInsets (Widget_of_mode m) restored) =? 0)
     then kNonClientExtraTopThickness else 0) /\
  kNonClientExtraTopThickness = 1 /\
  FrameTopBorderThickness (Widget_of_mode m) true = 5 /\
  FrameTopBorderThickness (Widget_of_mode Maximized) false = 0 /\
  FrameTopBorderThickness (Widget_of_mode Fullscreen) false = 0 /\
  FrameTopBorderThickness (Widget_of_mode Restored) false = 5.
Proof.
  split; [apply FrameTopBorderThickness_any_widget|].
  destruct m; repeat split; reflexivity.
Qed.

Lemma GetIconSize_max (env : Env) :
  GetIconSize env = Z.max (FontList_GetHeight env) 16.
Proof. reflexivity. Qed.

Lemma GetIconSize_mono (env1 env2 : Env) :
  FontList_GetHeight env1 <= FontList_GetHeight env2 ->
  GetIconSize env1 <= GetIconSize env2.
Proof. unfold GetIconSize. cbv zeta. lia. Qed.

(** C10.  Between two calls that agree on the top edge inset and on the
    caption buttons' vertical origin, [NonClientTopHeight(restored)] does not
    decrease when the icon size (the larger of the font's line height and 16)
    and the caption button height do not decrease; and with the same icon
    size and caption button height it returns the same value. *)
Theorem NonClientTopHeight_monotone (env1 env2 : Env) (restored : bool)
  (Hedge : gfx.top (FrameEdgeInsets env1 restored) =
           gfx.top (FrameEdgeInsets env2 restored))
  (Hy : DefaultCaptionButtonY env1 restored = DefaultCaptionButtonY env2 restored) :
  GetIconSize env1 = Z.max (FontList_GetHeight env1) 16 /\
  (GetIconSize env1 <= GetIconSize env2 ->
   kCaptionButtonHeight env1 <= kCaptionButtonHeight env2 ->
   NonClientTopHeight env1 restored <= NonClientTopHeight env2 restored) /\
  (GetIconSize env1 = GetIconSize env2 ->
   kCaptionButtonHeight env1 = kCaptionButtonHeight env2 ->
   NonClientTopHeight env1 restored = NonClientTopHeight env2 restored).
Proof.
  split; [reflexivity|].
  unfold NonClientTopHeight. cbv zeta. rewrite Hedge, Hy.
  split; intros Hicon Hcap.
  - apply Z.add_le_mono_r, Z.max_le_compat; lia.
  - now rewrite Hicon, Hcap.
Qed.

(** The sums of [NonClientTopHeight] stay in the range of [int] for inputs of
    the size of a screen. *)
Lemma NonClientTopHeight_int_range (env : Env) (restored : bool) :
  0 <= gfx.top (FrameEdgeInsets env restored) <= 2 ^ 16 ->
  0 <= FontList_GetHeight env <= 2 ^ 16 ->
  0 <= DefaultCaptionButtonY env restored <= 2 ^ 16 ->
  0 <= kCaptionButtonHeight env <= 2 ^ 16 ->
  int_range (NonClientTopHeight env restored) /\
  0 < NonClientTopHeight env restored.
Proof.
  unfold int_range, NonClientTopHeight, GetIconSize,
    kCaptionButtonBottomPadding, kContentEdgeShadowThickness.
  cbv zeta. lia.
Qed.

(** ** The view *)

Section ViewProperties.

Context {toolkit : Toolkit}.

Implicit Types (env : Env) (v : OpaqueFrameView toolkit) (point : gfx.Point).

(** *** Initialization *)

Lemma Init_custom_drawn env (b : FramelessView) :
  ShouldCustomDrawSystemTitlebar env = true ->
  Init env (OpaqueFrameView_new b) =
  OpaqueFrameView_new (FramelessView_Init env b).
Proof. intros H. unfold Init. cbn. rewrite H. reflexivity. Qed.

Lemma Init_not_custom_drawn env v :
  ShouldCustomDrawSystemTitlebar env = false ->
  Init env v =
  InitButtons
    (set_subscription true
       (call RegisterPaintAsActiveChangedCallback
          (set_container (Some (mkContainer (gfx.mkRect 0 0 0 0) None))
             (AddChildView PlaceholderChild
                (set_base (FramelessView_Init env (base v)) v))))).
Proof. intros H. unfold Init. rewrite H. reflexivity. Qed.

(** C2.  What [Init] does on a new view: the four buttons are created, once
    each and after the placeholder, exactly when
    [ShouldCustomDrawSystemTitlebar()] is false; when it is true [Init]
    returns early and no button is created. *)
Theorem Init_creates_buttons_unless_custom_drawn env (b : FramelessView) :
  buttons_exist (Init env (OpaqueFrameView_new b)) =
    negb (ShouldCustomDrawSystemTitlebar env) /\
  no_button (Init env (OpaqueFrameView_new b)) =
    ShouldCustomDrawSystemTitlebar env /\
  children (Init env (OpaqueFrameView_new b)) =
    if ShouldCustomDrawSystemTitlebar env then []
    else [PlaceholderChild;
          ButtonChild VIEW_ID_MINIMIZE_BUTTON;
          ButtonChild VIEW_ID_MAXIMIZE_BUTTON;
          ButtonChild VIEW_ID_RESTORE_BUTTON;
          ButtonChild VIEW_ID_CLOSE_BUTTON].
Proof.
  unfold Init.
  destruct (ShouldCustomDrawSystemTitlebar env); repeat split; reflexivity.
Qed.

(** *** Null placeholder *)

Lemma Layout_null_container env v :
  ShouldCustomDrawSystemTitlebar env = true ->
  caption_button_placeholder_container_ v = None ->
  Layout env v = NullDereference.
Proof. intros Hc Hn. unfold Layout. rewrite Hc, Hn. reflexivity. Qed.

Lemma LayoutWindowControlsOverlay_null_container env v :
  caption_button_placeholder_container_ v = None ->
  LayoutWindowControlsOverlay env v = NullDereference.
Proof.
  intros Hn. unfold LayoutWindowControlsOverlay. rewrite Hn. cbv zeta.
  destruct (titlebar_overlay_height env =? 0); reflexivity.
Qed.

(** When the title bar is not custom-drawn [Layout] is the base class's
    layout, whether the placeholder exists or not. *)
Lemma Layout_not_custom_drawn env v :
  ShouldCustomDrawSystemTitlebar env = false ->
  Layout env v = Done (set_base (FramelessView_Layout env (base v)) v).
Proof. intros Hc. unfold Layout. now rewrite Hc. Qed.

(** The reader that does test the pointer before it writes through it. *)
Lemma UpdateBackground_null_container env v :
  caption_button_placeholder_container_ v = None ->
  UpdateCaptionButtonPlaceholderContainerBackground env v = v.
Proof.
  intros Hn. unfold UpdateCaptionButtonPlaceholderContainerBackground.
  now rewrite Hn.
Qed.

(** C1.  After [Init] with a custom-drawn title bar the placeholder pointer
    is null; [Layout] in that state passes its [ShouldCustomDrawSystemTitlebar]
    test and calls [SetBounds] through the null pointer, and
    [LayoutWindowControlsOverlay] reads the size through it, whatever the
    environment of the call. *)
Theorem Layout_dereferences_null_placeholder env env' (b : FramelessView)
  (Hcustom : ShouldCustomDrawSystemTitlebar env = true) :
  caption_button_placeholder_container_ (Init env (OpaqueFrameView_new b)) = None /\
  Layout env (Init env (OpaqueFrameView_new b)) = NullDereference /\
  LayoutWindowControlsOverlay env' (Init env (OpaqueFrameView_new b)) =
    NullDereference.
Proof.
  rewrite (Init_custom_drawn env b Hcustom).
  split; [reflexivity|]. split.
  - now apply Layout_null_container.
  - now apply LayoutWindowControlsOverlay_null_container.
Qed.

(** *** Hit testing *)

Lemma HitTestCaptionButton_candidate env button point :
  HitTestCaptionButton env button point = true <-> candidate env button point.
Proof.
  unfold HitTestCaptionButton, candidate. split.
  - destruct button as [b|]; [|discriminate].
    intros H. apply andb_true_iff in H. destruct H as [Hv Hc].
    exists b. auto.
  - intros [b [-> [Hv Hc]]]. now rewrite Hv, Hc.
Qed.

Lemma HitTestCaptionButton_not_candidate env button point :
  HitTestCaptionButton env button point = false <-> ~ candidate env button point.
Proof.
  rewrite <- HitTestCaptionButton_candidate.
  destruct (HitTestCaptionButton env button point); split; intros H;
    try reflexivity; try discriminate; try (exfalso; now apply H).
Qed.

Lemma in_overlay_caption_test env v point :
  IsWindowControlsOverlayEnabled env &&
  match caption_button_placeholder_container_ v with
  | None => false
  | Some c => Rect_Contains (GetMirroredBounds env (container_bounds c)) point
  end = true <-> in_overlay_caption env v point.
Proof.
  unfold in_overlay_caption. rewrite andb_true_iff. split.
  - intros [Hw Hc]. split; [exact Hw|].
    destruct (caption_button_placeholder_container_ v) as [c|]; [|discriminate].
    now exists c.
  - intros [Hw [c [Hs Hc]]]. rewrite Hs. auto.
Qed.

Lemma not_in_overlay_caption_test env v point :
  IsWindowControlsOverlayEnabled env &&
  match caption_button_placeholder_container_ v with
  | None => false
  | Some c => Rect_Contains (GetMirroredBounds env (container_bounds c)) point
  end = false <-> ~ in_overlay_caption env v point.
Proof.
  rewrite <- in_overlay_caption_test.
  match goal with |- ?t = false <-> _ => destruct t end; split; intros H;
    try reflexivity; try discriminate; try (exfalso; now apply H).
Qed.

Lemma NonClientHitTest_first_match env v point :
  ShouldCustomDrawSystemTitlebar env = true ->
  first_match env v point (NonClientHitTest env v point).
Proof.
  intros Hcustom. unfold NonClientHitTest. rewrite Hcustom.
  destruct (HitTestCaptionButton env (close_button_ v) point) eqn:Hclose.
  { apply match_close. now apply HitTestCaptionButton_candidate. }
  apply HitTestCaptionButton_not_candidate in Hclose.
  destruct (HitTestCaptionButton env (restore_button_ v) point) eqn:Hrestore.
  { apply match_restore; [exact Hclose|].
    now apply HitTestCaptionButton_candidate. }
  apply HitTestCaptionButton_not_candidate in Hrestore.
  destruct (HitTestCaptionButton env (maximize_button_ v) point) eqn:Hmax.
  { apply match_maximize; [exact Hclose|exact Hrestore|].
    now apply HitTestCaptionButton_candidate. }
  apply HitTestCaptionButton_not_candidate in Hmax.
  destruct (HitTestCaptionButton env (minimize_button_ v) point) eqn:Hmin.
  { apply match_minimize; [exact Hclose|exact Hrestore|exact Hmax|].
    now apply HitTestCaptionButton_candidate. }
  apply HitTestCaptionButton_not_candidate in Hmin.
  match goal with |- context [if ?t then _ else _] => destruct t eqn:Hcap end.
  - apply match_caption; try assumption. now apply in_overlay_caption_test.
  - apply match_base; try assumption. now apply not_in_overlay_caption_test.
Qed.

Lemma first_match_unique env v point (r r' : Z) :
  first_match env v point r -> first_match env v point r' -> r = r'.
Proof.
  intros H H'. destruct H; destruct H'; try reflexivity; contradiction.
Qed.

(** C4.  With a custom-drawn title bar, [NonClientHitTest] returns the first
    match in the order close button ([HTCLOSE]), restore button
    ([HTMAXBUTTON]), maximize button ([HTMAXBUTTON]), minimize button
    ([HTMINBUTTON]), overlay caption ([HTCAPTION]: the overlay is enabled, the
    placeholder exists and its mirrored bounds contain the point), and else
    the base class's answer; it returns nothing else; and a button matches
    exactly when it is non-null, visible, and its mirrored bounds contain the
    point. *)
Theorem NonClientHitTest_priority env v point
  (Hcustom : ShouldCustomDrawSystemTitlebar env = true) :
  first_match env v point (NonClientHitTest env v point) /\
  (forall r : Z, first_match env v point r -> r = NonClientHitTest env v point) /\
  (forall button : option ImageButton,
     HitTestCaptionButton env button point = true <->
     exists b, button = Some b /\ button_visible b = true /\
               Rect_Contains (GetMirroredBounds env (button_bounds b)) point = true).
Proof.
  split; [now apply NonClientHitTest_first_match|]. split.
  - intros r Hr. apply (first_match_unique env v point); [exact Hr|].
    now apply NonClientHitTest_first_match.
  - intros button. apply HitTestCaptionButton_candidate.
Qed.

Lemma NonClientHitTest_all_null env v point :
  no_button v = true ->
  caption_button_placeholder_container_ v = None ->
  NonClientHitTest env v point = FramelessView_NonClientHitTest env (base v) point.
Proof.
  unfold no_button, NonClientHitTest. intros Hb Hc.
  destruct (minimize_button_ v), (maximize_button_ v),
           (restore_button_ v), (close_button_ v); try discriminate Hb.
  rewrite Hc. cbn. rewrite andb_false_r.
  destruct (ShouldCustomDrawSystemTitlebar env); reflexivity.
Qed.

(** The five pointers stay null for the life of a view whose title bar is
    custom-drawn at every call, and so does the answer of the hit test. *)
Lemma run_keeps_pointers_null env (op : Op) v v' :
  ShouldCustomDrawSystemTitlebar env = true ->
  op <> OpInitButtons ->
  no_button v = true ->
  caption_button_placeholder_container_ v = None ->
  run env op v = Done v' ->
  no_button v' = true /\ caption_button_placeholder_container_ v' = None.
Proof.
  intros Hcustom Hop Hb Hc.
  destruct op; cbn [run]; intros H.
  - injection H as <-. unfold Init. rewrite Hcustom. now split.
  - now contradiction Hop.
  - unfold ResetWindowControls, no_button in *. cbn in H.
    destruct (minimize_button_ v), (maximize_button_ v),
      (restore_button_ v), (close_button_ v); discriminate.
  - injection H as <-. now split.
  - now rewrite (Layout_null_container env v Hcustom Hc) in H.
  - now rewrite (LayoutWindowControlsOverlay_null_container env v Hc) in H.
  - injection H as <-. unfold PaintAsActiveChanged. cbv zeta.
    rewrite (UpdateBackground_null_container env v Hc). now split.
  - injection H as <-. unfold OnThemeChanged. cbv zeta.
    rewrite (UpdateBackground_null_container env v Hc). now split.
  - injection H as <-.
    rewrite (UpdateBackground_null_container env v Hc). now split.
Qed.

Lemma run_all_keeps_pointers_null (steps : list (Env * Op)) v v' :
  custom_drawn_life steps ->
  no_button v = true ->
  caption_button_placeholder_container_ v = None ->
  run_all steps v = Done v' ->
  no_button v' = true /\ caption_button_placeholder_container_ v' = None.
Proof.
  intros Hlife. revert v.
  induction Hlife as [| [env op] rest [Hcustom Hop] _ IH]; intros v Hb Hc Hrun.
  - injection Hrun as <-. now split.
  - cbn in Hrun. destruct (run env op v) as [v1|] eqn:Hstep; [|discriminate].
    destruct (run_keeps_pointers_null env op v v1 Hcustom Hop Hb Hc Hstep)
      as [Hb1 Hc1].
    now apply (IH v1).
Qed.

Lemma NonClientHitTest_custom_drawn_life env (b : FramelessView)
  (steps : list (Env * Op)) v' env' point :
  ShouldCustomDrawSystemTitlebar env = true ->
  custom_drawn_life steps ->
  run_all steps (Init env (OpaqueFrameView_new b)) = Done v' ->
  NonClientHitTest env' v' point =
  FramelessView_NonClientHitTest env' (base v') point.
Proof.
  intros Hcustom Hlife Hrun.
  rewrite (Init_custom_drawn env b Hcustom) in Hrun.
  destruct (run_all_keeps_pointers_null steps
              (OpaqueFrameView_new (FramelessView_Init env b)) v'
              Hlife eq_refl eq_refl Hrun) as [Hb Hc].
  now apply NonClientHitTest_all_null.
Qed.

(** For the whole of such a life a [Layout] dereferences the null
    placeholder. *)
Lemma Layout_custom_drawn_life env (b : FramelessView)
  (steps : list (Env * Op)) v' env' :
  ShouldCustomDrawSystemTitlebar env = true ->
  custom_drawn_life steps ->
  run_all steps (Init env (OpaqueFrameView_new b)) = Done v' ->
  ShouldCustomDrawSystemTitlebar env' = true ->
  Layout env' v' = NullDereference.
Proof.
  intros Hcustom Hlife Hrun Hcustom'.
  rewrite (Init_custom_drawn env b Hcustom) in Hrun.
  destruct (run_all_keeps_pointers_null steps
              (OpaqueFrameView_new (FramelessView_Init env b)) v'
              Hlife eq_refl eq_refl Hrun) as [_ Hc].
  now apply Layout_null_container.
Qed.

(** C3.  After [Init] with a custom-drawn title bar the four button pointers
    and the placeholder pointer are null, and [NonClientHitTest] returns the
    base class's hit-test result at every point (in the environment of any
    later call). *)
Theorem NonClientHitTest_after_custom_drawn_Init env env' (b : FramelessView)
  point (Hcustom : ShouldCustomDrawSystemTitlebar env = true) :
  no_button (Init env (OpaqueFrameView_new b)) = true /\
  caption_button_placeholder_container_ (Init env (OpaqueFrameView_new b)) = None /\
  NonClientHitTest env' (Init env (OpaqueFrameView_new b)) point =
    FramelessView_NonClientHitTest env'
      (base (Init env (OpaqueFrameView_new b))) point.
Proof.
  rewrite (Init_custom_drawn env b Hcustom).
  split; [reflexivity|]. split; [reflexivity|].
  now apply NonClientHitTest_all_null.
Qed.

(** *** The window-controls overlay *)

Lemma LayoutWindowControlsOverlay_with_container env v
  (c : CaptionButtonPlaceholderContainer) :
  caption_button_placeholder_container_ v = Some c ->
  LayoutWindowControlsOverlay env v =
  Done (call NotifyLayoutWindowControlsOverlay
          (call (SetWindowControlsOverlayRect
                   (GetMirroredRect env
                      (gfx.Rect_of 0 0
                         (View_width env - gfx.width (container_bounds c))
                         (if titlebar_overlay_height env =? 0
                          then if IsMaximized env
                               then gfx.height (container_bounds c)
                               else gfx.height (container_bounds c) + 1
                          else titlebar_overlay_height env))))
             v)).
Proof.
  intros Hc. unfold LayoutWindowControlsOverlay. rewrite Hc. cbv zeta.
  destruct (titlebar_overlay_height env =? 0); reflexivity.
Qed.

(** The rectangle [LayoutWindowControlsOverlay] hands to
    [SetWindowControlsOverlayRect], and whether the notification follows. *)
Lemma LayoutWindowControlsOverlay_calls env v v' :
  LayoutWindowControlsOverlay env v = Done v' ->
  exists r, calls v' =
            calls v ++ [SetWindowControlsOverlayRect r;
                        NotifyLayoutWindowControlsOverlay].
Proof.
  destruct (caption_button_placeholder_container_ v) as [c|] eqn:Hc.
  - rewrite (LayoutWindowControlsOverlay_with_container env v c Hc).
    intros H. injection H as <-. eexists. cbn. now rewrite <- app_assoc.
  - rewrite (LayoutWindowControlsOverlay_null_container env v Hc). discriminate.
Qed.


(** *** Resetting the window controls *)

(** C7.  When the minimize, maximize and restore buttons exist,
    [ResetWindowControls] puts each of the three in [STATE_NORMAL], whatever
    its state was, changes nothing else about them, and leaves the close
    button as it was. *)
Theorem ResetWindowControls_states v (bmin bmax brestore : ImageButton)
  (Hmin : minimize_button_ v = Some bmin)
  (Hmax : maximize_button_ v = Some bmax)
  (Hrestore : restore_button_ v = Some brestore) :
  exists v',
    ResetWindowControls v = Done v' /\
    minimize_button_ v' = Some (SetState STATE_NORMAL bmin) /\
    maximize_button_ v' = Some (SetState STATE_NORMAL bmax) /\
    restore_button_ v' = Some (SetState STATE_NORMAL brestore) /\
    button_state (SetState STATE_NORMAL bmin) = STATE_NORMAL /\
    button_state (SetState STATE_NORMAL bmax) = STATE_NORMAL /\
    button_state (SetState STATE_NORMAL brestore) = STATE_NORMAL /\
    close_button_ v' = close_button_ v.
Proof.
  unfold ResetWindowControls. cbn. rewrite Hrestore. cbn.
  rewrite Hmin. cbn. rewrite Hmax. cbn.
  eexists. split; [reflexivity|]. cbn. repeat split.
Qed.

(** *** The layout cursor *)

Lemma InitButtons_layout_cursor v :
  layout_cursor (InitButtons v) = layout_cursor v.
Proof. reflexivity. Qed.

Lemma Init_layout_cursor env v : layout_cursor (Init env v) = layout_cursor v.
Proof.
  unfold Init. destruct (ShouldCustomDrawSystemTitlebar env); reflexivity.
Qed.

Lemma UpdateBackground_layout_cursor env v :
  layout_cursor (UpdateCaptionButtonPlaceholderContainerBackground env v) =
  layout_cursor v.
Proof.
  unfold UpdateCaptionButtonPlaceholderContainerBackground.
  destruct (caption_button_placeholder_container_ v); reflexivity.
Qed.

Lemma ResetWindowControls_layout_cursor v v' :
  ResetWindowControls v = Done v' -> layout_cursor v' = layout_cursor v.
Proof.
  unfold ResetWindowControls. cbn.
  destruct (restore_button_ v); [cbn|discriminate].
  destruct (minimize_button_ v); [cbn|discriminate].
  destruct (maximize_button_ v); [cbn|discriminate].
  intros H. injection H as <-. reflexivity.
Qed.

Lemma Layout_layout_cursor env v v' :
  Layout env v = Done v' -> layout_cursor v' = layout_cursor v.
Proof.
  unfold Layout.
  destruct (ShouldCustomDrawSystemTitlebar env); cbn.
  - destruct (caption_button_placeholder_container_ v); [cbn|discriminate].
    intros H. injection H as <-. reflexivity.
  - intros H. injection H as <-. reflexivity.
Qed.

Lemma LayoutWindowControlsOverlay_layout_cursor env v v' :
  LayoutWindowControlsOverlay env v = Done v' ->
  layout_cursor v' = layout_cursor v.
Proof.
  destruct (caption_button_placeholder_container_ v) as [c|] eqn:Hc.
  - rewrite (LayoutWindowControlsOverlay_with_container env v c Hc).
    intros H. injection H as <-. reflexivity.
  - rewrite (LayoutWindowControlsOverlay_null_container env v Hc). discriminate.
Qed.

(** No operation assigns a member of the layout cursor. *)
Lemma run_layout_cursor env (op : Op) v v' :
  run env op v = Done v' -> layout_cursor v' = layout_cursor v.
Proof.
  destruct op; cbn [run]; intros H;
    try (injection H as <-).
  - apply Init_layout_cursor.
  - apply InitButtons_layout_cursor.
  - now apply ResetWindowControls_layout_cursor.
  - reflexivity.
  - now apply (Layout_layout_cursor env).
  - now apply (LayoutWindowControlsOverlay_layout_cursor env).
  - unfold PaintAsActiveChanged. cbv zeta.
    rewrite <- (UpdateBackground_layout_cursor env v). reflexivity.
  - unfold OnThemeChanged. cbv zeta.
    rewrite <- (UpdateBackground_layout_cursor env v). reflexivity.
  - apply UpdateBackground_layout_cursor.
Qed.

Lemma reachable_run_all (steps : list (Env * Op)) v v' :
  reachable v -> run_all steps v = Done v' -> reachable v'.
Proof.
  revert v. induction steps as [| [env op] rest IH]; intros v Hv Hrun.
  - injection Hrun as <-. exact Hv.
  - cbn in Hrun. destruct (run env op v) as [v1|] eqn:Hstep; [|discriminate].
    apply (IH v1); [|exact Hrun].
    now apply (reach_run env op v v1).
Qed.

Lemma reachable_layout_cursor v :
  reachable v -> layout_cursor v = (false, false, 0, 0, 0).
Proof.
  induction 1 as [b | env op v v' _ IH Hrun].
  - reflexivity.
  - rewrite (run_layout_cursor env op v v' Hrun). exact IH.
Qed.

(** C8.  In a view reached from construction by any sequence of operations
    the five layout-cursor members still hold [false], [false], 0, 0, 0, and
    no operation changes them; so a [Layout] with a custom-drawn title bar
    calls [SetBounds] on the placeholder with x = 0, y = the top inset, width
    0 minus the horizontal frame border insets (and height the top height
    minus the top inset), before the base class's layout. *)
Theorem layout_cursor_never_written v (Hreach : reachable v) :
  layout_cursor v = (false, false, 0, 0, 0) /\
  (forall env (op : Op) v',
     run env op v = Done v' -> layout_cursor v' = layout_cursor v) /\
  (forall env,
     ShouldCustomDrawSystemTitlebar env = true ->
     Layout env v =
     (c <- deref (caption_button_placeholder_container_ v) ;;
      Done (set_base (FramelessView_Layout env (base v))
              (set_container
                 (Some (SetBounds 0
                          (gfx.top (FrameBorderInsets (frame env) false))
                          (0 - gfx.Insets_width (FrameBorderInsets (frame env) false))
                          (NonClientTopHeight env false -
                           gfx.top (FrameBorderInsets (frame env) false))
                          c))
                 v)))).
Proof.
  pose proof (reachable_layout_cursor v Hreach) as Hcur.
  split; [exact Hcur|]. split.
  - intros env op v'. apply run_layout_cursor.
  - intros env Hcustom.
    unfold layout_cursor in Hcur. injection Hcur as _ Htrail _ _ Hmin.
    unfold Layout. rewrite Hcustom, Htrail, Hmin.
    destruct (caption_button_placeholder_container_ v); reflexivity.
Qed.

End ViewProperties.

(** ** The properties at concrete inputs *)

(** Geometry of the example window: the caption row (1 + 30 + 3) is taller
    than the icon row (2 + 16 + 2). *)
Example NonClientTopHeight_example :
  NonClientTopHeight (example_env true false) false = 36 /\
  NonClientTopHeight example_env_taller false = 46.
Proof. split; reflexivity. Qed.

Lemma NonClientTopHeight_monotone_witness :
  NonClientTopHeight (example_env true false) false <=
  NonClientTopHeight example_env_taller false.
Proof.
  destruct (NonClientTopHeight_monotone (example_env true false)
              example_env_taller false eq_refl eq_refl) as [_ [Hmono _]].
  apply Hmono; vm_compute; discriminate.
Defined.

Lemma Layout_dereferences_null_placeholder_witness :
  let v := Init (example_env true false) (@OpaqueFrameView_new example_toolkit tt) in
  caption_button_placeholder_container_ v = None /\
  Layout (example_env true false) v = NullDereference /\
  LayoutWindowControlsOverlay (example_env true true) v = NullDereference.
Proof.
  exact (@Layout_dereferences_null_placeholder example_toolkit
           (example_env true false) (example_env true true) tt eq_refl).
Defined.

(** With an OS-drawn title bar [Init] creates the placeholder and the four
    buttons; with a custom-drawn one it creates nothing. *)
Example Init_example :
  buttons_exist
    (Init (example_env false false) (@OpaqueFrameView_new example_toolkit tt)) = true /\
  buttons_exist
    (Init (example_env true false) (@OpaqueFrameView_new example_toolkit tt)) = false /\
  Init (example_env true false) (@OpaqueFrameView_new example_toolkit tt) =
    @OpaqueFrameView_new example_toolkit tt.
Proof. repeat split. Qed.

(** The close button [Init] creates. *)
Example Init_close_button_example :
  close_button_
    (Init (example_env false false) (@OpaqueFrameView_new example_toolkit tt)) =
  Some (mkImageButton (Some VIEW_ID_CLOSE_BUTTON) (Some IDS_ACCNAME_CLOSE)
          (Some (Widget_CloseWithReason kCloseButtonClicked)) ACCESSIBLE_ONLY
          [(STATE_NORMAL, kNormal); (STATE_HOVERED, kHovered);
           (STATE_PRESSED, kPressed); (STATE_DISABLED, kDisabled)]
          STATE_NORMAL true (gfx.mkRect 0 0 0 0)).
Proof. reflexivity. Qed.

Lemma NonClientHitTest_after_custom_drawn_Init_witness :
  let v := Init (example_env true false) (@OpaqueFrameView_new example_toolkit tt) in
  no_button v = true /\
  caption_button_placeholder_container_ v = None /\
  NonClientHitTest (example_env true false) v (gfx.mkPoint 760 10) = HTCLIENT.
Proof.
  exact (@NonClientHitTest_after_custom_drawn_Init example_toolkit
           (example_env true false) (example_env true false) tt
           (gfx.mkPoint 760 10) eq_refl).
Defined.

(** The close, maximize and minimize buttons are stacked on one rectangle
    (the restore button too, but it is hidden): a point inside resolves to
    the close button. *)
Lemma NonClientHitTest_priority_witness :
  first_match (example_env true false)
    (example_view STATE_NORMAL STATE_NORMAL STATE_NORMAL STATE_NORMAL)
    (gfx.mkPoint 760 10) HTCLOSE.
Proof.
  exact (proj1 (@NonClientHitTest_priority example_toolkit
                  (example_env true false)
                  (example_view STATE_NORMAL STATE_NORMAL STATE_NORMAL STATE_NORMAL)
                  (gfx.mkPoint 760 10) eq_refl)).
Defined.

(** Further down the order: without the close button the same point is the
    maximize button's; in the placeholder and outside every button it is the
    caption; outside the placeholder it is the base class's; and when the
    title bar is not custom-drawn the buttons are not consulted. *)
Example NonClientHitTest_examples :
  let v := example_view STATE_NORMAL STATE_NORMAL STATE_NORMAL STATE_NORMAL in
  NonClientHitTest (example_env true false) (set_close_button None v)
    (gfx.mkPoint 760 10) = HTMAXBUTTON /\
  NonClientHitTest (example_env true false)
    (set_maximize_button None (set_close_button None v))
    (gfx.mkPoint 760 10) = HTMINBUTTON /\
  NonClientHitTest (example_env true false) v (gfx.mkPoint 670 10) = HTCAPTION /\
  NonClientHitTest (example_env true false) v (gfx.mkPoint 10 10) = HTCLIENT /\
  NonClientHitTest (example_env false false) v (gfx.mkPoint 760 10) = HTCLIENT.
Proof. repeat split. Qed.



(** The same view maximized: (0, 0, 662, 30). *)
Example LayoutWindowControlsOverlay_maximized_example :
  let v := example_view STATE_NORMAL STATE_NORMAL STATE_NORMAL STATE_NORMAL in
  LayoutWindowControlsOverlay (example_env true true) v =
  Done (call NotifyLayoutWindowControlsOverlay
          (call (SetWindowControlsOverlayRect (gfx.mkRect 0 0 662 30)) v)).
Proof. reflexivity. Qed.

(** In a right-to-left UI the published rectangle sits at the far side. *)
Example LayoutWindowControlsOverlay_rtl_example :
  let v := example_view STATE_NORMAL STATE_NORMAL STATE_NORMAL STATE_NORMAL in
  LayoutWindowControlsOverlay example_env_rtl v =
  Done (call NotifyLayoutWindowControlsOverlay
          (call (SetWindowControlsOverlayRect (gfx.mkRect 138 0 662 31)) v)).
Proof. reflexivity. Qed.

(** On a view without buttons [ResetWindowControls] dereferences a null
    pointer. *)
Example ResetWindowControls_null_example :
  ResetWindowControls (@OpaqueFrameView_new example_toolkit tt) = NullDereference.
Proof. reflexivity. Qed.

(** All four buttons hovered, then [ResetWindowControls]. *)
Lemma ResetWindowControls_states_witness :
  let v := example_view STATE_HOVERED STATE_HOVERED STATE_HOVERED STATE_HOVERED in
  exists v',
    ResetWindowControls v = Done v' /\
    option_map button_state (minimize_button_ v') = Some STATE_NORMAL /\
    option_map button_state (maximize_button_ v') = Some STATE_NORMAL /\
    option_map button_state (restore_button_ v') = Some STATE_NORMAL /\
    option_map button_state (close_button_ v') = Some STATE_HOVERED.
Proof.
  cbv zeta.
  destruct (@ResetWindowControls_states example_toolkit
              (example_view STATE_HOVERED STATE_HOVERED STATE_HOVERED STATE_HOVERED)
              _ _ _ eq_refl eq_refl eq_refl)
    as [v' [Hrun [Hmin [Hmax [Hrestore [_ [_ [_ Hclose]]]]]]]].
  exists v'. split; [exact Hrun|].
  rewrite Hmin, Hmax, Hrestore, Hclose. repeat split.
Defined.

(** A view initialized with an OS-drawn title bar, laid out when the title
    bar is custom-drawn: [SetBounds(0, 4, 0 - 8, 36 - 4)] leaves the
    placeholder at x = 0, y = 4, 0 wide and 32 high. *)
Lemma layout_cursor_never_written_witness :
  let v := Init (example_env false false) (@OpaqueFrameView_new example_toolkit tt) in
  layout_cursor v = (false, false, 0, 0, 0) /\
  Layout (example_env true false) v =
  Done (set_container
          (Some (mkContainer (gfx.mkRect 0 4 0 32) None)) v).
Proof.
  cbv zeta.
  destruct (@layout_cursor_never_written example_toolkit
              (Init (example_env false false) (@OpaqueFrameView_new example_toolkit tt))
              (reach_run (example_env false false) OpInit
                 (@OpaqueFrameView_new example_toolkit tt) _ (@reach_new example_toolkit tt) eq_refl))
    as [Hcursor [_ HLayout]].
  split; [exact Hcursor|].
  exact (HLayout (example_env true false) eq_refl).
Defined.

(** * Further properties of the code *)

(** ** Title-bar height *)

(** X1.  [NonClientTopHeight] is the taller of the icon row and the caption
    row plus the 2 px shadow: it leaves room for a 16 px icon with its 2 px
    of padding below the top edge inset, and for the caption buttons with
    their 3 px of padding below, and it is exactly one of the two. *)
Theorem NonClientTopHeight_rows (env : Env) (restored : bool) :
  16 <= GetIconSize env /\
  FontList_GetHeight env <= GetIconSize env /\
  gfx.top (FrameEdgeInsets env restored) + 16 + 2 + 2 <=
    NonClientTopHeight env restored /\
  DefaultCaptionButtonY env restored + kCaptionButtonHeight env + 3 + 2 <=
    NonClientTopHeight env restored /\
  (NonClientTopHeight env restored =
     gfx.top (FrameEdgeInsets env restored) + GetIconSize env + 2 + 2 \/
   NonClientTopHeight env restored =
     DefaultCaptionButtonY env restored + kCaptionButtonHeight env + 3 + 2).
Proof.
  unfold NonClientTopHeight, GetIconSize, kCaptionButtonBottomPadding,
    kContentEdgeShadowThickness.
  cbv zeta. lia.
Qed.

(** ** Client and window bounds *)

Section BoundsProperties.

Context {toolkit : Toolkit}.

Implicit Types (env : Env) (v : OpaqueFrameView toolkit).

Lemma FrameBorderInsets_sides (w : Widget) (restored : bool) :
  FrameBorderInsets w restored = gfx.Insets_zero \/
  FrameBorderInsets w restored = gfx.TLBR 4 4 4 4.
Proof.
  unfold FrameBorderInsets.
  destruct (negb restored && IsFrameCondensed w); [left|right]; reflexivity.
Qed.

(** X2.  With a custom-drawn title bar the client view starts at the left
    and top border insets and never has a negative width or height, however
    small the view is.  In a condensed frame it is the whole view; in a
    restored frame of at least 8 x 8 it is the view less 4 px on each
    side, and in a narrower one its width is 0. *)
Theorem GetBoundsForClientView_custom_drawn env v
  (Hcustom : ShouldCustomDrawSystemTitlebar env = true) :
  gfx.x (GetBoundsForClientView env v) =
    gfx.left (FrameBorderInsets (frame env) false) /\
  gfx.y (GetBoundsForClientView env v) =
    gfx.top (FrameBorderInsets (frame env) false) /\
  0 <= gfx.width (GetBoundsForClientView env v) /\
  0 <= gfx.height (GetBoundsForClientView env v) /\
  (IsFrameCondensed (frame env) = true ->
   GetBoundsForClientView env v =
   gfx.mkRect 0 0 (Z.max 0 (View_width env)) (Z.max 0 (View_height env))) /\
  (IsFrameCondensed (frame env) = false ->
   8 <= View_width env -> 8 <= View_height env ->
   GetBoundsForClientView env v =
   gfx.mkRect 4 4 (View_width env - 8) (View_height env - 8)) /\
  (IsFrameCondensed (frame env) = false -> View_width env < 8 ->
   gfx.width (GetBoundsForClientView env v) = 0).
Proof.
  unfold GetBoundsForClientView. rewrite Hcustom. cbv zeta.
  destruct (IsFrameCondensed (frame env)) eqn:Hcond.
  - assert (Hi : FrameBorderInsets (frame env) false = gfx.Insets_zero)
      by now apply FrameBorderInsets_zero_iff.
    rewrite Hi. unfold gfx.Insets_width, gfx.Insets_zero.
    cbn [gfx.top gfx.left gfx.bottom gfx.right gfx.x gfx.y gfx.width gfx.height].
    repeat split; try lia; try discriminate.
    intros _. f_equal; lia.
  - assert (Hi : FrameBorderInsets (frame env) false = gfx.TLBR 4 4 4 4)
      by (unfold FrameBorderInsets; now rewrite Hcond).
    rewrite Hi. unfold gfx.Insets_width.
    cbn [gfx.top gfx.left gfx.bottom gfx.right gfx.x gfx.y gfx.width gfx.height].
    repeat split; try lia; try discriminate.
    intros _ Hw Hh. f_equal; lia.
Qed.



(** When the title bar is not custom-drawn both are the base class's. *)
Lemma bounds_not_custom_drawn env v (client_bounds : gfx.Rect) :
  ShouldCustomDrawSystemTitlebar env = false ->
  GetBoundsForClientView env v =
    FramelessView_GetBoundsForClientView env (base v) /\
  GetWindowBoundsForClientBounds env v client_bounds =
    FramelessView_GetWindowBoundsForClientBounds env (base v) client_bounds.
Proof.
  intros H. unfold GetBoundsForClientView, GetWindowBoundsForClientBounds.
  now rewrite H.
Qed.

End BoundsProperties.

(** ** Buttons *)

Section ButtonProperties.

Context {toolkit : Toolkit}.

Implicit Types (env : Env) (v : OpaqueFrameView toolkit) (point : gfx.Point).

(** X5.  [CreateImageButton] returns a normal, visible button with the id,
    accessible name and callback it was given and one image for each of the
    four button states, requested for the provider state of the same name
    (no two button states share one); it adds that button, and nothing
    else, as the view's last child. *)
Theorem CreateImageButton_button (view_id : ViewID) (name : AccessibleName)
  (callback : PressedCallback) v :
  fst (CreateImageButton view_id name callback v) =
    created_button view_id name callback /\
  snd (CreateImageButton view_id name callback v) =
    AddChildView (ButtonChild view_id) v /\
  map fst (button_images (created_button view_id name callback)) =
    [STATE_NORMAL; STATE_HOVERED; STATE_PRESSED; STATE_DISABLED] /\
  (forall s : ButtonState,
     In (s, ButtonStateToNavButtonProviderState s)
        (button_images (fst (CreateImageButton view_id name callback v)))) /\
  (forall s1 s2 : ButtonState,
     ButtonStateToNavButtonProviderState s1 =
     ButtonStateToNavButtonProviderState s2 -> s1 = s2).
Proof.
  split; [reflexivity|]. split; [reflexivity|]. split; [reflexivity|]. split.
  - intros s. destruct s; cbn; auto.
  - intros s1 s2. destruct s1, s2; cbn; intros H; try reflexivity; discriminate H.
Qed.

Lemma InitButtons_members v :
  minimize_button_ (InitButtons v) =
    Some (created_button VIEW_ID_MINIMIZE_BUTTON IDS_ACCNAME_MINIMIZE
            Widget_Minimize) /\
  maximize_button_ (InitButtons v) =
    Some (created_button VIEW_ID_MAXIMIZE_BUTTON IDS_ACCNAME_MAXIMIZE
            Widget_Maximize) /\
  restore_button_ (InitButtons v) =
    Some (created_button VIEW_ID_RESTORE_BUTTON IDS_ACCNAME_RESTORE
            Widget_Restore) /\
  close_button_ (InitButtons v) =
    Some (created_button VIEW_ID_CLOSE_BUTTON IDS_ACCNAME_CLOSE
            (Widget_CloseWithReason kCloseButtonClicked)).
Proof. repeat split. Qed.

Lemma InitButtons_children v :
  children (InitButtons v) =
  children v ++ [ButtonChild VIEW_ID_MINIMIZE_BUTTON;
                 ButtonChild VIEW_ID_MAXIMIZE_BUTTON;
                 ButtonChild VIEW_ID_RESTORE_BUTTON;
                 ButtonChild VIEW_ID_CLOSE_BUTTON].
Proof.
  unfold InitButtons, CreateImageButton. cbn.
  now rewrite <- !app_assoc.
Qed.

(** X6.  [InitButtons] is not guarded against a second call: the four
    members then hold the same four buttons as after the first call (each
    with its own id, name and widget action, whatever the members held
    before), but the view has gained four more children, so every button id
    is among its children twice. *)
Theorem InitButtons_twice v :
  minimize_button_ (InitButtons (InitButtons v)) =
    minimize_button_ (InitButtons v) /\
  maximize_button_ (InitButtons (InitButtons v)) =
    maximize_button_ (InitButtons v) /\
  restore_button_ (InitButtons (InitButtons v)) =
    restore_button_ (InitButtons v) /\
  close_button_ (InitButtons (InitButtons v)) =
    close_button_ (InitButtons v) /\
  option_map button_callback (close_button_ (InitButtons v)) =
    Some (Some (Widget_CloseWithReason kCloseButtonClicked)) /\
  children (InitButtons (InitButtons v)) =
    children v ++ [ButtonChild VIEW_ID_MINIMIZE_BUTTON;
                   ButtonChild VIEW_ID_MAXIMIZE_BUTTON;
                   ButtonChild VIEW_ID_RESTORE_BUTTON;
                   ButtonChild VIEW_ID_CLOSE_BUTTON;
                   ButtonChild VIEW_ID_MINIMIZE_BUTTON;
                   ButtonChild VIEW_ID_MAXIMIZE_BUTTON;
                   ButtonChild VIEW_ID_RESTORE_BUTTON;
                   ButtonChild VIEW_ID_CLOSE_BUTTON] /\
  caption_button_placeholder_container_ (InitButtons v) =
    caption_button_placeholder_container_ v.
Proof.
  repeat split.
  rewrite !InitButtons_children. now rewrite <- app_assoc.
Qed.

(** *** Resetting *)

Lemma ResetWindowControls_null_iff_aux v :
  ResetWindowControls v = NullDereference <->
  restore_button_ v = None \/ minimize_button_ v = None \/
  maximize_button_ v = None.
Proof.
  unfold ResetWindowControls. cbn.
  destruct (restore_button_ v); cbn; [|split; auto].
  destruct (minimize_button_ v); cbn; [|split; auto].
  destruct (maximize_button_ v); cbn; [|split; auto].
  split; [discriminate|]. intros [H | [H | H]]; discriminate H.
Qed.

(** X7.  [ResetWindowControls] dereferences a null pointer exactly when the
    restore, the minimize or the maximize button is missing; whether there is
    a close button, and which, makes no difference. *)
Theorem ResetWindowControls_null_iff v :
  (ResetWindowControls v = NullDereference <->
   restore_button_ v = None \/ minimize_button_ v = None \/
   maximize_button_ v = None) /\
  (forall close : option ImageButton,
     ResetWindowControls (set_close_button close v) = NullDereference <->
     ResetWindowControls v = NullDereference).
Proof.
  split; [apply ResetWindowControls_null_iff_aux|].
  intros close. rewrite !ResetWindowControls_null_iff_aux. reflexivity.
Qed.

(** X8.  A second [ResetWindowControls] right after a first changes no data
    member of the view: only the base class's reset runs again. *)
Theorem ResetWindowControls_twice v v1
  (Hfirst : ResetWindowControls v = Done v1) :
  ResetWindowControls v1 =
  Done (set_base (NonClientFrameView_ResetWindowControls (base v1)) v1).
Proof.
  unfold ResetWindowControls in *. cbn in *.
  destruct (restore_button_ v); cbn in *; [|discriminate].
  destruct (minimize_button_ v); cbn in *; [|discriminate].
  destruct (maximize_button_ v); cbn in *; [|discriminate].
  injection Hfirst as <-. reflexivity.
Qed.

End ButtonProperties.

(** ** Operations on the view *)

Section OperationProperties.

Context {toolkit : Toolkit}.

Implicit Types (env : Env) (v : OpaqueFrameView toolkit) (point : gfx.Point).

(** *** The button ordering *)

(** X9.  The button ordering is written and never read.  Setting it
    commutes with every other operation (a later
    [OnWindowButtonOrderingChange] overwrites it wholesale), and it changes
    no hit test and no client or window bounds: no layout or hit test
    depends on [leading_buttons_] or [trailing_buttons_]. *)
Theorem button_order_is_never_read env (op : Op) v
  (leading trailing : list FrameButton) point (client_bounds : gfx.Rect) :
  run env op (set_button_order leading trailing v) =
    match op with
    | OpOnWindowButtonOrderingChange => run env op v
    | _ => outcome_map (set_button_order leading trailing) (run env op v)
    end /\
  leading_buttons_ (OnWindowButtonOrderingChange env v) =
    provider_leading_buttons env /\
  trailing_buttons_ (OnWindowButtonOrderingChange env v) =
    provider_trailing_buttons env /\
  NonClientHitTest env (set_button_order leading trailing v) point =
    NonClientHitTest env v point /\
  GetBoundsForClientView env (set_button_order leading trailing v) =
    GetBoundsForClientView env v /\
  GetWindowBoundsForClientBounds env (set_button_order leading trailing v)
    client_bounds =
    GetWindowBoundsForClientBounds env v client_bounds.
Proof.
  split; [|repeat split].
  destruct op; cbn [run outcome_map]; try reflexivity.
  - unfold Init. destruct (ShouldCustomDrawSystemTitlebar env); reflexivity.
  - unfold ResetWindowControls. cbn.
    destruct (restore_button_ v); cbn; [|reflexivity].
    destruct (minimize_button_ v); cbn; [|reflexivity].
    destruct (maximize_button_ v); reflexivity.
  - unfold Layout. cbn.
    destruct (ShouldCustomDrawSystemTitlebar env); cbn; [|reflexivity].
    destruct (caption_button_placeholder_container_ v); reflexivity.
  - unfold LayoutWindowControlsOverlay. cbn.
    destruct (caption_button_placeholder_container_ v);
      destruct (titlebar_overlay_height env =? 0); reflexivity.
  - unfold PaintAsActiveChanged,
      UpdateCaptionButtonPlaceholderContainerBackground. cbn.
    destruct (caption_button_placeholder_container_ v); reflexivity.
  - unfold OnThemeChanged,
      UpdateCaptionButtonPlaceholderContainerBackground. cbn.
    destruct (caption_button_placeholder_container_ v); reflexivity.
  - unfold UpdateCaptionButtonPlaceholderContainerBackground. cbn.
    destruct (caption_button_placeholder_container_ v); reflexivity.
Qed.

(** *** Layout *)

Lemma Layout_result env v v1 :
  Layout env v = Done v1 ->
  v1 = set_base (base v1)
         (set_container (caption_button_placeholder_container_ v1) v) /\
  is_set (caption_button_placeholder_container_ v1) =
    is_set (caption_button_placeholder_container_ v) /\
  option_map container_background (caption_button_placeholder_container_ v1) =
    option_map container_background (caption_button_placeholder_container_ v).
Proof.
  unfold Layout.
  destruct (ShouldCustomDrawSystemTitlebar env); cbn.
  - destruct (caption_button_placeholder_container_ v) as [c|] eqn:Hc;
      cbn; [|discriminate].
    intros H. injection H as <-. cbn. destruct v. cbn in *. now rewrite Hc.
  - intros H. injection H as <-. cbn. destruct v. now cbn.
Qed.

(** X10.  A [Layout] that returns has changed nothing in the view but the
    bounds of the placeholder and the base class's part: the four buttons
    are not moved, shown or hidden, and the placeholder keeps its
    background.  A second [Layout] in the same environment changes no data
    member at all; only the base class's layout runs again. *)
Theorem Layout_twice env v v1 (Hfirst : Layout env v = Done v1) :
  v1 = set_base (base v1)
         (set_container (caption_button_placeholder_container_ v1) v) /\
  option_map container_background (caption_button_placeholder_container_ v1) =
    option_map container_background (caption_button_placeholder_container_ v) /\
  Layout env v1 = Done (set_base (FramelessView_Layout env (base v1)) v1).
Proof.
  destruct (Layout_result env v v1 Hfirst) as [Hv1 [_ Hbg]].
  split; [exact Hv1|]. split; [exact Hbg|].
  revert Hfirst. unfold Layout.
  destruct (ShouldCustomDrawSystemTitlebar env); cbn.
  - destruct (caption_button_placeholder_container_ v) as [c|];
      cbn; [|discriminate].
    intros H. injection H as <-. reflexivity.
  - intros H. injection H as <-. reflexivity.
Qed.

(** *** The placeholder's background *)

(** X11.  [UpdateCaptionButtonPlaceholderContainerBackground] gives an
    existing placeholder the window's overlay-button colour and keeps its
    bounds; on a view without placeholder it changes nothing; and of two
    updates in a row only the second one's colour remains.
    [PaintAsActiveChanged] and [OnThemeChanged] leave the same placeholder
    behind as the update alone. *)
Theorem UpdateBackground_last_colour_wins env1 env2 v :
  UpdateCaptionButtonPlaceholderContainerBackground env2
    (UpdateCaptionButtonPlaceholderContainerBackground env1 v) =
  UpdateCaptionButtonPlaceholderContainerBackground env2 v /\
  caption_button_placeholder_container_
    (UpdateCaptionButtonPlaceholderContainerBackground env1 v) =
  option_map (fun c => mkContainer (container_bounds c)
                         (Some (overlay_button_color env1)))
    (caption_button_placeholder_container_ v) /\
  (caption_button_placeholder_container_ v = None ->
   UpdateCaptionButtonPlaceholderContainerBackground env1 v = v) /\
  caption_button_placeholder_container_ (PaintAsActiveChanged env1 v) =
  caption_button_placeholder_container_
    (UpdateCaptionButtonPlaceholderContainerBackground env1 v) /\
  caption_button_placeholder_container_ (OnThemeChanged env1 v) =
  caption_button_placeholder_container_
    (UpdateCaptionButtonPlaceholderContainerBackground env1 v).
Proof.
  unfold PaintAsActiveChanged, OnThemeChanged,
    UpdateCaptionButtonPlaceholderContainerBackground.
  destruct (caption_button_placeholder_container_ v) as [c|] eqn:Hc; cbn;
    rewrite ?Hc; repeat split; try reflexivity; discriminate.
Qed.

(** *** Hit testing *)

(** X12.  The restore and the maximize button both answer [HTMAXBUTTON], so
    the hit test cannot tell them apart: exchanging the two buttons changes
    the result at no point. *)
Theorem NonClientHitTest_swap_restore_maximize env v point :
  NonClientHitTest env (swap_restore_maximize v) point =
  NonClientHitTest env v point.
Proof.
  unfold NonClientHitTest, swap_restore_maximize. cbn.
  destruct (ShouldCustomDrawSystemTitlebar env); [|reflexivity].
  destruct (HitTestCaptionButton env (close_button_ v) point); [reflexivity|].
  destruct (HitTestCaptionButton env (maximize_button_ v) point),
           (HitTestCaptionButton env (restore_button_ v) point); reflexivity.
Qed.

End OperationProperties.

(** ** Invariants of a view's life *)

Section LifeProperties.

Context {toolkit : Toolkit}.

Implicit Types (env : Env) (v : OpaqueFrameView toolkit) (point : gfx.Point).

(** *** Everything is created together *)

Lemma run_keeps_created env (op : Op) v v' :
  op <> OpInitButtons ->
  nothing_created v = true \/ all_created v = true ->
  run env op v = Done v' ->
  nothing_created v' = true \/ all_created v' = true.
Proof.
  intros Hop Hv.
  unfold nothing_created, all_created, no_button, buttons_exist in *.
  destruct op; cbn [run]; intros H.
  - injection H as <-. unfold Init.
    destruct (ShouldCustomDrawSystemTitlebar env); [exact Hv|].
    right. reflexivity.
  - now contradiction Hop.
  - unfold ResetWindowControls in H. cbn in H.
    destruct (restore_button_ v) eqn:Hr; cbn in H; [|discriminate].
    destruct (minimize_button_ v) eqn:Hm; cbn in H; [|discriminate].
    destruct (maximize_button_ v) eqn:Hx; cbn in H; [|discriminate].
    injection H as <-. cbn. exact Hv.
  - injection H as <-. exact Hv.
  - unfold Layout in H.
    destruct (ShouldCustomDrawSystemTitlebar env); cbn in H.
    + destruct (caption_button_placeholder_container_ v) eqn:Hc;
        cbn in H; [|discriminate].
      injection H as <-. cbn. exact Hv.
    + injection H as <-. exact Hv.
  - destruct (caption_button_placeholder_container_ v) as [c|] eqn:Hc.
    + rewrite (LayoutWindowControlsOverlay_with_container env v c Hc) in H.
      injection H as <-. cbn. rewrite Hc. exact Hv.
    + now rewrite (LayoutWindowControlsOverlay_null_container env v Hc) in H.
  - injection H as <-.
    unfold PaintAsActiveChanged,
      UpdateCaptionButtonPlaceholderContainerBackground.
    destruct (caption_button_placeholder_container_ v) eqn:Hc; cbn;
      rewrite ?Hc; exact Hv.
  - injection H as <-.
    unfold OnThemeChanged,
      UpdateCaptionButtonPlaceholderContainerBackground.
    destruct (caption_button_placeholder_container_ v) eqn:Hc; cbn;
      rewrite ?Hc; exact Hv.
  - injection H as <-.
    unfold UpdateCaptionButtonPlaceholderContainerBackground.
    destruct (caption_button_placeholder_container_ v) eqn:Hc; cbn;
      rewrite ?Hc; exact Hv.
Qed.

Lemma run_all_keeps_created (steps : list (Env * Op)) v v' :
  no_direct_InitButtons steps ->
  nothing_created v = true \/ all_created v = true ->
  run_all steps v = Done v' ->
  nothing_created v' = true \/ all_created v' = true.
Proof.
  intros Hsteps. revert v.
  induction Hsteps as [| [env op] rest Hop _ IH]; intros v Hv Hrun.
  - injection Hrun as <-. exact Hv.
  - cbn in Hrun. destruct (run env op v) as [v1|] eqn:Hstep; [|discriminate].
    apply (IH v1); [|exact Hrun].
    now apply (run_keeps_created env op v v1).
Qed.

(** X13.  As long as [InitButtons] is only run by [Init], the four buttons,
    the placeholder and the paint-as-active subscription exist all together
    or not at all, whatever is called in whatever environment; so
    [ResetWindowControls] dereferences a null button exactly when the
    placeholder is missing. *)
Theorem created_all_or_nothing (b : FramelessView)
  (steps : list (Env * Op)) v
  (Hsteps : no_direct_InitButtons steps)
  (Hrun : run_all steps (OpaqueFrameView_new b) = Done v) :
  (nothing_created v = true \/ all_created v = true) /\
  (ResetWindowControls v = NullDereference <->
   caption_button_placeholder_container_ v = None).
Proof.
  assert (Hv : nothing_created v = true \/ all_created v = true).
  { apply (run_all_keeps_created steps (OpaqueFrameView_new b) v Hsteps);
      [left; reflexivity | exact Hrun]. }
  split; [exact Hv|].
  rewrite ResetWindowControls_null_iff_aux.
  unfold nothing_created, all_created, no_button, buttons_exist in Hv.
  destruct (minimize_button_ v), (maximize_button_ v), (restore_button_ v),
    (close_button_ v), (caption_button_placeholder_container_ v),
    (paint_as_active_changed_subscription_ v);
    cbn in Hv; destruct Hv as [Hv | Hv]; try discriminate Hv;
    split; auto; try discriminate;
    intros [H | [H | H]]; discriminate H.
Qed.

(** *** A stable title-bar flag *)





(** Without the condition the buttons can exist although the title bar is
    custom-drawn throughout. *)
Example InitButtons_after_custom_drawn_Init_example :
  let env := example_env true false in
  let v := InitButtons (Init env (@OpaqueFrameView_new example_toolkit tt)) in
  run_all [(env, OpInitButtons)]
    (Init env (@OpaqueFrameView_new example_toolkit tt)) = Done v /\
  buttons_exist v = true /\
  ResetWindowControls v = Done v.
Proof. cbv zeta. split; [|split]; vm_compute; reflexivity. Qed.

(** *** The buttons stay as they were created *)

Lemma SetState_created_button (view_id : ViewID) (name : AccessibleName)
  (callback : PressedCallback) :
  SetState STATE_NORMAL (created_button view_id name callback) =
  created_button view_id name callback.
Proof. reflexivity. Qed.

Lemma null_or_Some {A : Type} (a b : A) : null_or (Some a) b -> a = b.
Proof. intros [H | H]; [discriminate H | now injection H]. Qed.

Lemma InitButtons_as_created v : buttons_as_created (InitButtons v).
Proof. repeat split; right; reflexivity. Qed.

Lemma run_keeps_buttons_as_created env (op : Op) v v' :
  buttons_as_created v -> run env op v = Done v' -> buttons_as_created v'.
Proof.
  intros Hv. destruct op; cbn [run]; intros H.
  - injection H as <-. unfold Init.
    destruct (ShouldCustomDrawSystemTitlebar env);
      [exact Hv | apply InitButtons_as_created].
  - injection H as <-. apply InitButtons_as_created.
  - unfold buttons_as_created in *. destruct Hv as [Hmin [Hmax [Hres Hclose]]].
    unfold ResetWindowControls in H. cbn in H.
    destruct (restore_button_ v) as [br|]; cbn in H; [|discriminate].
    destruct (minimize_button_ v) as [bm|]; cbn in H; [|discriminate].
    destruct (maximize_button_ v) as [bx|]; cbn in H; [|discriminate].
    injection H as <-. cbn.
    apply null_or_Some in Hmin, Hmax, Hres. subst.
    repeat split; try (right; reflexivity). exact Hclose.
  - injection H as <-. exact Hv.
  - apply Layout_result in H. destruct H as [-> _]. exact Hv.
  - destruct (caption_button_placeholder_container_ v) as [c|] eqn:Hc.
    + rewrite (LayoutWindowControlsOverlay_with_container env v c Hc) in H.
      injection H as <-. exact Hv.
    + now rewrite (LayoutWindowControlsOverlay_null_container env v Hc) in H.
  - injection H as <-.
    unfold PaintAsActiveChanged,
      UpdateCaptionButtonPlaceholderContainerBackground.
    destruct (caption_button_placeholder_container_ v); exact Hv.
  - injection H as <-.
    unfold OnThemeChanged,
      UpdateCaptionButtonPlaceholderContainerBackground.
    destruct (caption_button_placeholder_container_ v); exact Hv.
  - injection H as <-.
    unfold UpdateCaptionButtonPlaceholderContainerBackground.
    destruct (caption_button_placeholder_container_ v); exact Hv.
Qed.

Lemma reachable_buttons_as_created v : reachable v -> buttons_as_created v.
Proof.
  induction 1 as [b | env op v v' _ IH Hrun].
  - repeat split; left; reflexivity.
  - exact (run_keeps_buttons_as_created env op v v' IH Hrun).
Qed.

(** X15.  No member function of the file moves, hides, re-binds or
    re-labels a button, or puts one in a state other than normal: in a view
    that the constructor and the member functions alone have produced, each
    button pointer is null or holds its button exactly as [InitButtons]
    created it (the close button bound to
    [CloseWithReason(kCloseButtonClicked)], and so on), and
    [ResetWindowControls], when it returns, has changed none of the four. *)
Theorem buttons_stay_as_created v (Hreach : reachable v) :
  buttons_as_created v /\
  (forall v', ResetWindowControls v = Done v' ->
     minimize_button_ v' = minimize_button_ v /\
     maximize_button_ v' = maximize_button_ v /\
     restore_button_ v' = restore_button_ v /\
     close_button_ v' = close_button_ v).
Proof.
  pose proof (reachable_buttons_as_created v Hreach) as Hv.
  split; [exact Hv|].
  intros v' H. destruct Hv as [Hmin [Hmax [Hres _]]].
  unfold ResetWindowControls in H. cbn in H.
  destruct (restore_button_ v) as [br|]; cbn in H; [|discriminate].
  destruct (minimize_button_ v) as [bm|]; cbn in H; [|discriminate].
  destruct (maximize_button_ v) as [bx|]; cbn in H; [|discriminate].
  injection H as <-. cbn.
  apply null_or_Some in Hmin, Hmax, Hres. subst. repeat split.
Qed.

(** *** The placeholder never gets a width *)

Lemma reachable_container_at_origin v : reachable v -> container_at_origin v.
Proof.
  induction 1 as [b | env op v v' Hreach IH Hrun].
  - intros c Hc. discriminate Hc.
  - destruct op; cbn [run] in Hrun.
    + injection Hrun as <-. unfold Init.
      destruct (ShouldCustomDrawSystemTitlebar env); [exact IH|].
      intros c Hc. cbn in Hc. injection Hc as <-. cbn. lia.
    + injection Hrun as <-. exact IH.
    + unfold ResetWindowControls in Hrun. cbn in Hrun.
      destruct (restore_button_ v); cbn in Hrun; [|discriminate].
      destruct (minimize_button_ v); cbn in Hrun; [|discriminate].
      destruct (maximize_button_ v); cbn in Hrun; [|discriminate].
      injection Hrun as <-. exact IH.
    + injection Hrun as <-. exact IH.
    + pose proof (reachable_layout_cursor v Hreach) as Hcur.
      unfold layout_cursor in Hcur. injection Hcur as _ Htrail _ _ Hmin.
      unfold Layout in Hrun. rewrite Htrail, Hmin in Hrun.
      destruct (ShouldCustomDrawSystemTitlebar env); cbn in Hrun.
      * destruct (caption_button_placeholder_container_ v) as [c0|];
          cbn in Hrun; [|discriminate].
        injection Hrun as <-. intros c Hc. cbn in Hc. injection Hc as <-.
        unfold SetBounds. cbn [container_bounds gfx.x gfx.y gfx.width].
        destruct (FrameBorderInsets_sides (frame env) false) as [Hi | Hi];
          rewrite Hi; cbn; lia.
      * injection Hrun as <-. exact IH.
    + destruct (caption_button_placeholder_container_ v) as [c0|] eqn:Hc0.
      * rewrite (LayoutWindowControlsOverlay_with_container env v c0 Hc0)
          in Hrun.
        injection Hrun as <-. exact IH.
      * now rewrite (LayoutWindowControlsOverlay_null_container env v Hc0)
          in Hrun.
    + injection Hrun as <-. intros c.
      unfold PaintAsActiveChanged,
        UpdateCaptionButtonPlaceholderContainerBackground.
      destruct (caption_button_placeholder_container_ v) as [c0|] eqn:Hc0;
        cbn; [|intros Hc; rewrite Hc0 in Hc; discriminate Hc].
      intros Hc. injection Hc as <-. exact (IH c0 Hc0).
    + injection Hrun as <-. intros c.
      unfold OnThemeChanged,
        UpdateCaptionButtonPlaceholderContainerBackground.
      destruct (caption_button_placeholder_container_ v) as [c0|] eqn:Hc0;
        cbn; [|intros Hc; rewrite Hc0 in Hc; discriminate Hc].
      intros Hc. injection Hc as <-. exact (IH c0 Hc0).
    + injection Hrun as <-. intros c.
      unfold UpdateCaptionButtonPlaceholderContainerBackground.
      destruct (caption_button_placeholder_container_ v) as [c0|] eqn:Hc0;
        cbn; [|intros Hc; rewrite Hc0 in Hc; discriminate Hc].
      intros Hc. injection Hc as <-. exact (IH c0 Hc0).
Qed.

(** X16.  Because the layout cursor is never written, the placeholder of a
    view that the constructor and the member functions alone have produced
    starts at x = 0 and is never given a positive width; so the rectangle
    [LayoutWindowControlsOverlay] builds for such a view, when it returns,
    is at least as wide as the view: no room is taken off for the caption
    buttons. *)
Theorem container_never_gets_a_width v (Hreach : reachable v) :
  container_at_origin v /\
  (forall env v', LayoutWindowControlsOverlay env v = Done v' ->
     exists w h : Z,
       calls v' = calls v ++
                  [SetWindowControlsOverlayRect
                     (GetMirroredRect env (gfx.mkRect 0 0 w h));
                   NotifyLayoutWindowControlsOverlay] /\
       View_width env <= w).
Proof.
  pose proof (reachable_container_at_origin v Hreach) as Hv.
  split; [exact Hv|].
  intros env v' H.
  destruct (caption_button_placeholder_container_ v) as [c|] eqn:Hc.
  - rewrite (LayoutWindowControlsOverlay_with_container env v c Hc) in H.
    injection H as <-.
    destruct (Hv c Hc) as [_ [_ Hw]].
    eexists. eexists. split.
    + cbn. rewrite <- app_assoc. reflexivity.
    + lia.
  - now rewrite (LayoutWindowControlsOverlay_null_container env v Hc) in H.
Qed.

End LifeProperties.

(** ** The further properties at concrete inputs *)

(** A restored 800 x 600 view: the client view is (4, 4, 792, 592). *)
Lemma GetBoundsForClientView_custom_drawn_witness :
  GetBoundsForClientView (example_env true false)
    (@OpaqueFrameView_new example_toolkit tt) =
  gfx.mkRect 4 4 792 592.
Proof.
  destruct (@GetBoundsForClientView_custom_drawn example_toolkit
              (example_env true false) (@OpaqueFrameView_new example_toolkit tt) eq_refl)
    as [_ [_ [_ [_ [_ [Hrestored _]]]]]].
  apply Hrestored; [reflexivity | |]; vm_compute; discriminate.
Defined.



(** Four hovered buttons, reset twice. *)
Lemma ResetWindowControls_twice_witness :
  let v1 := example_view STATE_NORMAL STATE_NORMAL STATE_NORMAL STATE_HOVERED in
  ResetWindowControls v1 =
  Done (set_base (NonClientFrameView_ResetWindowControls (base v1)) v1).
Proof.
  apply (@ResetWindowControls_twice example_toolkit
           (example_view STATE_HOVERED STATE_HOVERED STATE_HOVERED STATE_HOVERED)).
  vm_compute. reflexivity.
Defined.

(** The view of the layout example, laid out a second time. *)
Lemma Layout_twice_witness :
  let v1 :=
    set_container (Some (mkContainer (gfx.mkRect 0 4 0 32) None))
      (Init (example_env false false) (@OpaqueFrameView_new example_toolkit tt)) in
  Layout (example_env true false) v1 = Done v1.
Proof.
  exact (proj2 (proj2
           (@Layout_twice example_toolkit (example_env true false)
              (Init (example_env false false) (@OpaqueFrameView_new example_toolkit tt))
              (set_container (Some (mkContainer (gfx.mkRect 0 4 0 32) None))
                 (Init (example_env false false) (@OpaqueFrameView_new example_toolkit tt)))
              eq_refl))).
Defined.

(** A life with an [Init] for an OS-drawn title bar and a [Layout] for a
    custom-drawn one. *)
Lemma created_all_or_nothing_witness :
  let v :=
    set_container (Some (mkContainer (gfx.mkRect 0 4 0 32) None))
      (Init (example_env false false) (@OpaqueFrameView_new example_toolkit tt)) in
  (nothing_created v = true \/ all_created v = true) /\
  (ResetWindowControls v = NullDereference <->
   caption_button_placeholder_container_ v = None).
Proof.
  apply (@created_all_or_nothing example_toolkit tt
           [(example_env false false, OpInit);
            (example_env true false, OpLayout)]).
  - repeat constructor; discriminate.
  - vm_compute. reflexivity.
Defined.


Lemma buttons_stay_as_created_witness :
  buttons_as_created
    (Init (example_env false false) (@OpaqueFrameView_new example_toolkit tt)).
Proof.
  exact (proj1
           (@buttons_stay_as_created example_toolkit
              (Init (example_env false false) (@OpaqueFrameView_new example_toolkit tt))
              (reach_run (example_env false false) OpInit
                 (@OpaqueFrameView_new example_toolkit tt) _
                 (@reach_new example_toolkit tt) eq_refl))).
Defined.

(** After a [Layout] with a custom-drawn title bar the placeholder has no
    width. *)
Lemma container_never_gets_a_width_witness :
  container_at_origin
    (set_container (Some (mkContainer (gfx.mkRect 0 4 0 32) None))
       (Init (example_env false false) (@OpaqueFrameView_new example_toolkit tt))).
Proof.
  apply (@container_never_gets_a_width example_toolkit).
  apply (reach_run (example_env true false) OpLayout
           (Init (example_env false false) (@OpaqueFrameView_new example_toolkit tt))).
  - apply (reach_run (example_env false false) OpInit
             (@OpaqueFrameView_new example_toolkit tt)).
    + apply reach_new.
    + reflexivity.
  - vm_compute. reflexivity.
Defined.
